(** * Email automation pipeline: validate, classify, respond, dispatch

    A shallow embedding of [main.py], [llm_calls.py] and [templates.py].

    Conventions of the model.
    - A Python [str] is a [string]; an [ascii] is read as the code point
      of the same number (0..255).
    - An email is a dict from field names to [Optional[str]] values: the
      source annotates emails as [Dict[str, str]] and tests fields
      against [None].
    - The objects ([EmailAutomationSystem], [EmailProcessor],
      [OpenAIClient]) live in the state the methods run in, next to the
      remote chat-completion service and the trace of observable calls
      (logger, print, API requests, handler and mock-service calls).
    - The two Python sets ([valid_categories], [required_fields]) are
      [gset]s; [elements] stands for the order in which Python iterates
      over a set, which the source does not fix. It shows only in the
      order of the category names in the classification prompt and in
      which missing field is logged first; no statement below depends
      on it.
    - The client is [OpenAIClient], the one implementation of
      [BaseClient] in the repository and the one [run_demonstration]
      constructs.
    - [datetime.fromisoformat] and the chat-completion endpoint are not
      code of this repository: they are variables of the section. So
      are [os.path.exists], the JSON reader of pandas and its rendering
      of a data frame, which [load_data] and [run_demonstration] use;
      the data [sample_emails], whose module is not among the sources,
      is the argument of [run_demonstration]. *)

From Stdlib Require Import Ascii String QArith.
From stdpp Require Import gmap strings list fin_maps.

Local Open Scope string_scope.
Local Open Scope list_scope.

(** ** Python strings *)

Definition nl : string := String (ascii_of_nat 10) EmptyString.

Definition code (c : ascii) : nat := nat_of_ascii c.

(** [str.isspace] on one character (code points below 256). *)
Definition isspace (c : ascii) : bool :=
  let n := code c in
  (((9 <=? n) && (n <=? 13)) || ((28 <=? n) && (n <=? 32))
   || (n =? 133) || (n =? 160))%nat.

(** The class [\d] of [re] on [str] patterns (code points below 256). *)
Definition isdigit (c : ascii) : bool :=
  let n := code c in ((48 <=? n) && (n <=? 57))%nat.

Definition lower_char (c : ascii) : ascii :=
  let n := code c in
  if (((65 <=? n) && (n <=? 90))
      || ((192 <=? n) && (n <=? 222) && negb (n =? 215)))%nat
  then ascii_of_nat (n + 32) else c.

(** [s.lower()] *)
Fixpoint lower (s : string) : string :=
  match s with
  | EmptyString => EmptyString
  | String c s' => String (lower_char c) (lower s')
  end.

Definition is_empty (s : string) : bool :=
  match s with EmptyString => true | _ => false end.

Fixpoint lstrip_by (p : ascii -> bool) (s : string) : string :=
  match s with
  | EmptyString => EmptyString
  | String c s' => if p c then lstrip_by p s' else s
  end.

Fixpoint rstrip_by (p : ascii -> bool) (s : string) : string :=
  match s with
  | EmptyString => EmptyString
  | String c s' =>
      let r := rstrip_by p s' in
      if is_empty r && p c then EmptyString else String c r
  end.

(** [s.strip()] *)
Definition strip (s : string) : string := rstrip_by isspace (lstrip_by isspace s).

(** [s.rstrip(chars)] for a one-character [chars] *)
Definition rstrip_char (ch : ascii) (s : string) : string :=
  rstrip_by (fun c => if decide (c = ch) then true else false) s.

(** [s.split()]: the maximal runs of non-whitespace characters. *)
Fixpoint split_from (cur : string) (s : string) : list string :=
  match s with
  | EmptyString => if is_empty cur then [] else [cur]
  | String c s' =>
      if isspace c
      then (if is_empty cur then split_from EmptyString s'
            else cur :: split_from EmptyString s')
      else split_from (cur +:+ String c EmptyString) s'
  end.

Definition split (s : string) : list string := split_from EmptyString s.

(** [s.replace(old, new)] for a one-character [old] *)
Fixpoint replace_char (old : ascii) (new : string) (s : string) : string :=
  match s with
  | EmptyString => EmptyString
  | String c s' =>
      (if decide (c = old) then new else String c EmptyString)
        +:+ replace_char old new s'
  end.

(** [sep.join(words)] *)
Definition join (sep : string) (words : list string) : string :=
  String.concat sep words.

(** [re.match(r'^\d{3}$', s)] as a truth value: three digits from the
    start, then the end of the string; [$] also matches just before a
    newline that ends the string. *)
Definition re_match_3_digits (s : string) : bool :=
  match s with
  | String a (String b (String c rest)) =>
      isdigit a && isdigit b && isdigit c
      && (is_empty rest || if decide (rest = nl) then true else false)
  | _ => false
  end.

(** ** Values, dicts, exceptions *)

Inductive pyval :=
| PyNone
| PyBool (b : bool)
| PyStr (s : string).

#[global] Instance pyval_eq_dec : EqDecision pyval.
Proof. solve_decision. Defined.

Definition of_optional (v : option string) : pyval :=
  match v with None => PyNone | Some s => PyStr s end.

(** [f"{v}"] for a value that is a [str] or [None] *)
Definition fmt (v : option string) : string :=
  match v with None => "None" | Some s => s end.

(** An email: field name to [Optional[str]]. *)
Abbreviation email := (gmap string (option string)).

(** The dict [process_email] returns. *)
Abbreviation result_dict := (gmap string pyval).

Inductive exn :=
| KeyError (key : string)
| ValueError (msg : string)
| TypeError (msg : string)
| AttributeError (msg : string)
| IndexError (msg : string)
| APIError (msg : string).

#[global] Instance exn_eq_dec : EqDecision exn.
Proof. solve_decision. Defined.

(** [str(e)]: a [KeyError] prints the repr of its key. *)
Definition exn_str (e : exn) : string :=
  match e with
  | KeyError k => "'" +:+ k +:+ "'"
  | ValueError m | TypeError m | AttributeError m | IndexError m | APIError m => m
  end.

Inductive outcome (A : Type) :=
| Returns (a : A)
| Raises (e : exn).
Arguments Returns {A} a.
Arguments Raises {A} e.

(** ** templates.py *)

Definition SYSTEM_PROMPT : string :=
  "You are an Email Support Agent. " +:+ nl +:+
  "You are part of an organization that sells technological products and offers delivery as a service." +:+ nl +:+
  "The name of your company is WonderTech." +:+ nl +:+
  "Answer in a polite, empathetic and formal way." +:+ nl +:+
  "Answer in the same language as the email sent to you".

(** [CLASSIFICATION_TEMPLATE.format(categories=.., email_data=..)] *)
Definition CLASSIFICATION_TEMPLATE (categories email_data : string) : string :=
  "You are a classifier. Your role is to classify an email based on its subject and body." +:+ nl +:+
  "Just answer with one of the following category names." +:+ nl +:+
  "The possible categories are:" +:+ nl +:+
  categories +:+ nl +:+
  nl +:+
  "Here are some examples:" +:+ nl +:+
  nl +:+
  "-Compliant: Customer is upset, reports a problem, demands refund." +:+ nl +:+
  "-Inquiry: Asks question about products or services" +:+ nl +:+
  "-Feedback: Provides price or constructive feedback" +:+ nl +:+
  "-Support request: Requests technical assistance or troubleshooting." +:+ nl +:+
  "-Other: Business proposals, partnership requests, spam, or any other topic not covered in the above categories" +:+ nl +:+
  nl +:+
  nl +:+
  "Email Data:" +:+ nl +:+
  email_data +:+ nl.

(** [RESPONSES_TEMPLATE.format(classification=..,
    specific_classification_instruction=.., email_data=..)] *)
Definition RESPONSES_TEMPLATE
    (classification specific_classification_instruction email_data : string) : string :=
  "You are a Customer Service Agent." +:+ nl +:+
  "Generate a concise, professional response based on the email subject and body." +:+ nl +:+
  "Respond just with the email body." +:+ nl +:+
  nl +:+
  "Category: " +:+ classification +:+ nl +:+
  nl +:+
  "Specific Classification Instruction: " +:+ specific_classification_instruction +:+ nl +:+
  nl +:+
  "Email Data: " +:+ nl +:+
  email_data +:+ nl +:+
  nl +:+
  "Response:".

(** ** The objects and what the program does to the outside *)

(** [llm_calls.OpenAIClient]; its [self.client] is the connection to the
    service, which the state carries as [world]. *)
Record OpenAIClient := { model : string }.

Record EmailProcessor := {
  client : OpenAIClient;
  valid_categories : gset string;
  required_fields : gset string }.

(** The bound methods stored in [response_handlers]. *)
Inductive handler :=
| _handle_complaint
| _handle_inquiry
| _handle_feedback
| _handle_support_request
| _handle_other.

#[global] Instance handler_eq_dec : EqDecision handler.
Proof. solve_decision. Defined.

Record EmailAutomationSystem := {
  processor : EmailProcessor;
  response_handlers : gmap string handler }.

Record message := { role : string; content : string }.

(** The arguments of [chat.completions.create]. *)
Record request := {
  req_model : string;
  req_temperature : Q;
  req_messages : list message }.

(** What [chat.completions.create] does: it raises, or it returns
    completions, of which the program reads the [message.content] of
    each choice (a [str] or [None]). *)
Inductive api_reply :=
| APIRaises (e : exn)
| APICompletions (choices : list (option string)).

Inductive level := INFO | WARNING | ERROR.

(** The two client methods that reach the language model. *)
Inductive llm_op := Classification | Response.

#[global] Instance llm_op_eq_dec : EqDecision llm_op.
Proof. solve_decision. Defined.

(** The calls of the mock service functions, with their arguments. *)
Inductive service_call :=
| SendComplaintResponse (email_id : option string) (response : string)
| SendStandardResponse (email_id : option string) (response : string)
| CreateUrgentTicket (email_id : option string) (category context : string)
| CreateSupportTicket (email_id : option string) (context : string)
| LogCustomerFeedback (email_id : option string) (feedback : string).

Inductive event :=
| EvLog (lvl : level) (msg : string)
| EvPrint (out : string)
| EvRequest (op : llm_op) (req : request)
| EvDispatch (h : handler)
| EvService (c : service_call).

Definition dq : string := String (ascii_of_nat 34) EmptyString.

Section Pipeline.

(** The chat-completion service: a state of its own and the reply it
    gives to a request in that state. *)
Context {W : Type}.
Variable create : W -> request -> api_reply * W.

(** [datetime.fromisoformat]: [None] when it raises [ValueError]. *)
Context {datetime : Type}.
Variable fromisoformat : string -> option datetime.

Record state := {
  system : EmailAutomationSystem;   (* the objects and their fields *)
  result : result_dict;             (* the dict bound to [result] in process_email *)
  world : W;
  trace : list event }.

(** Computations that read and write the state and may raise. *)
Definition M (A : Type) : Type := state -> outcome A * state.

#[global] Instance M_ret : MRet M := fun A a s => (Returns a, s).

#[global] Instance M_bind : MBind M := fun A B f m s =>
  match m s with
  | (Returns a, s') => f a s'
  | (Raises e, s') => (Raises e, s')
  end.

Definition raise {A} (e : exn) : M A := fun s => (Raises e, s).

(** [try: body / except Exception as e: handler e] *)
Definition try_except {A} (body : M A) (handler : exn -> M A) : M A := fun s =>
  match body s with
  | (Returns a, s') => (Returns a, s')
  | (Raises e, s') => handler e s'
  end.

Definition gets {A} (f : state -> A) : M A := fun s => (Returns (f s), s).

Definition emit (ev : event) : M unit := fun s =>
  (Returns tt,
   {| system := system s; result := result s; world := world s;
      trace := trace s ++ [ev] |}).

Definition set_result (r : result_dict) : M unit := fun s =>
  (Returns tt,
   {| system := system s; result := r; world := world s; trace := trace s |}).

Definition logger (lvl : level) (msg : string) : M unit := emit (EvLog lvl msg).

(** [print(a, b)] *)
Definition print2 (a b : string) : M unit := emit (EvPrint (a +:+ " " +:+ b +:+ nl)).

(** [d[k]] *)
Definition getitem {V} (d : gmap string V) (k : string) : M V :=
  match d !! k with
  | Some v => mret v
  | None => raise (KeyError k)
  end.

(** A value used where only a [str] works. *)
Definition expect_str (v : option string) (e : exn) : M string :=
  match v with
  | Some s => mret s
  | None => raise e
  end.

(** *** llm_calls.py *)

(** [self.client.chat.completions.create(model=.., temperature=..,
    messages=..)]: one request to the service, recorded with the
    method that makes it. *)
Definition chat_completions_create (op : llm_op) (req : request)
    : M (list (option string)) := fun s =>
  let '(reply, w) := create (world s) req in
  let s' := {| system := system s; result := result s; world := w;
               trace := trace s ++ [EvRequest op req] |} in
  match reply with
  | APIRaises e => (Raises e, s')
  | APICompletions choices => (Returns choices, s')
  end.

Definition messages (prompt : string) : list message :=
  [ {| role := "system"; content := SYSTEM_PROMPT |};
    {| role := "user"; content := prompt |} ].

(** [completions.choices[0].message.content] *)
Definition first_content (choices : list (option string)) : M (option string) :=
  match choices with
  | c :: _ => mret c
  | [] => raise (IndexError "list index out of range")
  end.

Definition get_classification (self : OpenAIClient) (e : email)
    (classification_prompt : string) : M (option string) :=
  try_except
    (completions ← chat_completions_create Classification
       {| req_model := model self; req_temperature := 0;
          req_messages := messages classification_prompt |};
     classification ← first_content completions;
     classification ← expect_str classification
       (AttributeError "'NoneType' object has no attribute 'lower'");
     mret (Some (rstrip_char "." (strip (lower classification)))))
    (fun _ =>
       id ← getitem e "id";
       logger WARNING ("Error while classifying ID: " +:+ fmt id);;
       mret None).

Definition default_temperature : Q := 1 # 2.

Definition get_response (self : OpenAIClient) (e : email)
    (response_prompt : string) (temperature : Q) : M (option string) :=
  try_except
    (completions ← chat_completions_create Response
       {| req_model := model self; req_temperature := temperature;
          req_messages := messages response_prompt |};
     response ← first_content completions;
     mret response)
    (fun _ =>
       id ← getitem e "id";
       logger WARNING ("Error while generating response ID: " +:+ fmt id);;
       mret None).

(** *** main.py: EmailProcessor *)

Definition OpenAIClient__init__ (model : string) : OpenAIClient :=
  {| model := model |}.

Definition EmailProcessor__init__ (c : OpenAIClient) : EmailProcessor :=
  {| client := c;
     valid_categories :=
       {[ "complaint"; "inquiry"; "feedback"; "support_request"; "other" ]};
     required_fields := {[ "id"; "from"; "subject"; "body"; "timestamp" ]} |}.

(** The loop over [self.required_fields], in the order the set yields
    its elements: [true] when it runs to its end. *)
Fixpoint check_required_fields (fields : list string) (e : email) : M bool :=
  match fields with
  | [] => mret true
  | field :: rest =>
      match e !! field with
      | Some (Some _) => check_required_fields rest e
      | _ =>
          logger WARNING ("Required field missing: " +:+ field);;
          mret false
      end
  end.

Definition validate_email_format (e : email) : M bool :=
  self ← gets (fun s => processor (system s));
  complete ← check_required_fields (elements (required_fields self)) e;
  if negb complete then mret false else
  id ← getitem e "id";
  id_str ← expect_str id (TypeError "expected string or bytes-like object, got 'NoneType'");
  if negb (re_match_3_digits id_str) then
    logger WARNING ("Invalid ID format " +:+ fmt id +:+ " - 3 digits required");;
    mret false
  else
  body ← getitem e "body";
  body_str ← expect_str body (AttributeError "'NoneType' object has no attribute 'split'");
  if bool_decide (split body_str = []) then
    id ← getitem e "id";
    logger WARNING ("Body must not be empty " +:+ fmt id);;
    mret false
  else
  try_except
    (timestamp ← getitem e "timestamp";
     ts ← expect_str timestamp
       (AttributeError "'NoneType' object has no attribute 'replace'");
     match fromisoformat (replace_char "Z" "+00:00" ts) with
     | Some _ => mret true
     | None => raise (ValueError "Invalid isoformat string")
     end)
    (fun _ =>
       timestamp ← getitem e "timestamp";
       logger WARNING ("Invalid timestamp format " +:+ fmt timestamp);;
       mret false).

Definition get_email_subject_and_body (e : email) : M string :=
  subject ← getitem e "subject";
  body ← getitem e "body";
  let not_str := TypeError ("can only concatenate str (not " +:+ dq +:+ "NoneType"
                            +:+ dq +:+ ") to str") in
  subject ← expect_str subject not_str;
  body ← expect_str body not_str;
  let result := "Subject:" +:+ nl +:+ subject +:+ nl +:+ nl +:+ "Body:" +:+ nl +:+ body in
  print2 "result: " result;;
  mret result.

(** [classification in self.valid_categories] *)
Definition in_categories (classification : option string) (cats : gset string) : bool :=
  match classification with
  | Some c => bool_decide (c ∈ cats)
  | None => false
  end.

Definition classify_email (e : email) : M (option string) :=
  self ← gets (fun s => processor (system s));
  let categories := join ", " (elements (valid_categories self)) in
  email_data ← get_email_subject_and_body e;
  let classification_prompt := CLASSIFICATION_TEMPLATE categories email_data in
  classification ← get_classification (client self) e classification_prompt;
  if in_categories classification (valid_categories self) then
    mret classification
  else
    id ← getitem e "id";
    logger WARNING ("Error while classifying email with ID: " +:+ fmt id);;
    mret None.

Definition response_prompts : gmap string string :=
  {[ "complaint" := "Apologize sincerely, offer a resolution, and ask for any additional details.";
     "inquiry" := "Provide a clear, helpful answer. Offer further assistance if needed.";
     "feedback" := "Thank the customer and explain how their feedback is valued.";
     "support_request" := "Acknowledge the issue and inform that a support ticket has been created.";
     "other" := "Respond politely and offer to assist further if needed.";
     "spam" := "Respond only with: [NO_RESPONSE]" ]}.

Definition generate_response (e : email) (classification : string) : M (option string) :=
  self ← gets (fun s => processor (system s));
  instruction ← getitem response_prompts classification;
  email_data ← get_email_subject_and_body e;
  let response_prompt := RESPONSES_TEMPLATE classification instruction email_data in
  response ← get_response (client self) e response_prompt default_temperature;
  mret response.

(** *** main.py: the mock service functions

    A call of a mock is recorded with its arguments (the real
    implementation would reach the email, ticket or feedback system
    there); its body logs one line. *)

Definition send_complaint_response (email_id : option string) (response : string) : M unit :=
  emit (EvService (SendComplaintResponse email_id response));;
  logger INFO ("Sending complaint response for email " +:+ fmt email_id).

Definition send_standard_response (email_id : option string) (response : string) : M unit :=
  emit (EvService (SendStandardResponse email_id response));;
  logger INFO ("Sending standard response for email " +:+ fmt email_id).

Definition create_urgent_ticket (email_id : option string) (category context : string) : M unit :=
  emit (EvService (CreateUrgentTicket email_id category context));;
  logger INFO ("Creating urgent ticket for email " +:+ fmt email_id).

Definition create_support_ticket (email_id : option string) (context : string) : M unit :=
  emit (EvService (CreateSupportTicket email_id context));;
  logger INFO ("Creating support ticket for email " +:+ fmt email_id).

Definition log_customer_feedback (email_id : option string) (feedback : string) : M unit :=
  emit (EvService (LogCustomerFeedback email_id feedback));;
  logger INFO ("Logging feedback for email " +:+ fmt email_id).

(** *** main.py: EmailAutomationSystem *)

Definition EmailAutomationSystem__init__ (p : EmailProcessor) : EmailAutomationSystem :=
  {| processor := p;
     response_handlers :=
       {[ "complaint" := _handle_complaint;
          "inquiry" := _handle_inquiry;
          "feedback" := _handle_feedback;
          "support_request" := _handle_support_request;
          "other" := _handle_other ]} |}.

(** The body of each handler method. *)
Definition handler_body (h : handler) (e : email) (response : string) : M unit :=
  match h with
  | _handle_complaint =>
      id ← getitem e "id";
      context ← get_email_subject_and_body e;
      create_urgent_ticket id "complaint" context;;
      id ← getitem e "id";
      send_complaint_response id response
  | _handle_inquiry =>
      id ← getitem e "id";
      send_standard_response id response
  | _handle_feedback =>
      id ← getitem e "id";
      feedback ← get_email_subject_and_body e;
      log_customer_feedback id feedback;;
      id ← getitem e "id";
      send_standard_response id response
  | _handle_support_request | _handle_other =>
      id ← getitem e "id";
      context ← get_email_subject_and_body e;
      create_support_ticket id context;;
      id ← getitem e "id";
      send_standard_response id response
  end.

(** Calling a handler taken from the dispatch table. *)
Definition call_handler (h : handler) (e : email) (response : string) : M unit :=
  emit (EvDispatch h);;
  handler_body h e response.

(** [x or default] for an [Optional[str]] [x] *)
Definition or_else (x : option string) (default : string) : string :=
  match x with
  | Some s => if is_empty s then default else s
  | None => default
  end.

(** [if not response: raise ValueError(..)]; past it the response is
    a non-empty [str]. *)
Definition require_response (e : email) (response : option string) : M string :=
  match response with
  | Some r =>
      if is_empty r then
        id ← getitem e "id";
        raise (ValueError ("Error while generating response for email with ID: " +:+ fmt id))
      else mret r
  | None =>
      id ← getitem e "id";
      raise (ValueError ("Error while generating response for email with ID: " +:+ fmt id))
  end.

(** The [try] block of [process_email]; it ends by yielding the dict
    [result] as it is then, at the early [return] as at the end. *)
Definition process_email_try (e : email) : M result_dict :=
  valid ← validate_email_format e;
  if negb valid then
    id ← getitem e "id";
    logger WARNING ("Invalid email format for email with ID: " +:+ fmt id);;
    gets result
  else
  classification ← classify_email e;
  let classification := or_else classification "other" in
  r ← gets result;
  set_result (<["classification" := PyStr classification]> r);;
  response ← generate_response e classification;
  response ← require_response e response;
  self ← gets system;
  call_handler (default _handle_other (response_handlers self !! classification))
    e response;;
  r ← gets result;
  set_result (<["response_sent" := PyBool true]> (<["success" := PyBool true]> r));;
  gets result.

(** The [except Exception as e] block, then the final [return result]. *)
Definition process_email_except (e : email) (err : exn) : M result_dict :=
  id ← getitem e "id";
  logger ERROR ("Error while processing email with ID: " +:+ fmt id);;
  id ← getitem e "id";
  create_support_ticket id ("Error: " +:+ exn_str err);;
  gets result.

Definition process_email (e : email) : M result_dict :=
  id ← getitem e "id";
  set_result
    {[ "email_id" := of_optional id;
       "success" := PyBool false;
       "classification" := PyNone;
       "response_sent" := PyBool false ]};;
  try_except (process_email_try e) (process_email_except e).

(** The state after [process_email] has been called on each email of
    a list in turn. *)
Definition after (history : list email) (s : state) : state :=
  foldl (fun s e => (process_email e s).2) s history.

End Pipeline.

Arguments state : clear implicits.
Arguments M : clear implicits.

(** ** The program as [run_demonstration] sets it up *)

(** [EmailAutomationSystem(EmailProcessor(OpenAIClient()))] *)
Definition automation_system : EmailAutomationSystem :=
  EmailAutomationSystem__init__ (EmailProcessor__init__ (OpenAIClient__init__ "gpt-4o-mini")).

(** A state of the running program: the objects as constructed, and any
    service state, trace so far and previous [result]. *)
Definition ready {W} (r : result_dict) (w : W) (t : list event) : state W :=
  {| system := automation_system; result := r; world := w; trace := t |}.

(** The state [s] with a new [result] and service state and a longer trace. *)
Definition upd {W} (s : state W) (r : result_dict) (w : W) (l : list event) : state W :=
  {| system := system s; result := r; world := w; trace := trace s ++ l |}.

(** ** Reading a trace *)

(** Console and log output, as opposed to calls that leave the process
    or dispatch a handler. *)
Definition is_output (ev : event) : bool :=
  match ev with
  | EvLog _ _ | EvPrint _ => true
  | _ => false
  end.

(** The trace without its console and log output. *)
Definition calls (t : list event) : list event :=
  filter (fun ev => is_output ev = false) t.

Definition requests_of (op : llm_op) (t : list event) : list request :=
  omap (fun ev => match ev with
                  | EvRequest op' req => if decide (op' = op) then Some req else None
                  | _ => None
                  end) t.

Definition dispatched (t : list event) : list handler :=
  omap (fun ev => match ev with EvDispatch h => Some h | _ => None end) t.

Definition service_calls (t : list event) : list service_call :=
  omap (fun ev => match ev with EvService c => Some c | _ => None end) t.

(** The pipeline stages after validation, as a trace shows them. *)
Inductive stage :=
| Classify
| Generate
| Dispatch (h : handler).

Definition stages (t : list event) : list stage :=
  omap (fun ev => match ev with
                  | EvRequest Classification _ => Some Classify
                  | EvRequest Response _ => Some Generate
                  | EvDispatch h => Some (Dispatch h)
                  | _ => None
                  end) t.

(** ** What validation decides *)

Definition present (e : email) (field : string) : bool :=
  match e !! field with
  | Some (Some _) => true
  | _ => false
  end.

Definition str_field (e : email) (field : string) : string :=
  match e !! field with
  | Some (Some v) => v
  | _ => EmptyString
  end.

(** The value [validate_email_format] returns when it returns. *)
Definition accepted {datetime} (fromisoformat : string -> option datetime)
    (required : gset string) (e : email) : bool :=
  forallb (present e) (elements required)
  && re_match_3_digits (str_field e "id")
  && negb (bool_decide (split (str_field e "body") = []))
  && bool_decide (is_Some (fromisoformat (replace_char "Z" "+00:00" (str_field e "timestamp")))).

(** The conditions of the specification, word for word. *)
Definition three_decimal_digits (s : string) : Prop :=
  exists a b c, s = String a (String b (String c EmptyString))
                /\ isdigit a = true /\ isdigit b = true /\ isdigit c = true.

Definition has_non_whitespace (s : string) : Prop :=
  exists c, c ∈ list_ascii_of_string s /\ isspace c = false.

Definition spec_valid {datetime} (fromisoformat : string -> option datetime)
    (e : email) : Prop :=
  exists id from subject body timestamp,
    e !! "id" = Some (Some id) /\ e !! "from" = Some (Some from)
    /\ e !! "subject" = Some (Some subject) /\ e !! "body" = Some (Some body)
    /\ e !! "timestamp" = Some (Some timestamp)
    /\ three_decimal_digits id
    /\ has_non_whitespace body
    /\ is_Some (fromisoformat (replace_char "Z" "+00:00" timestamp)).

(** ** A scripted service and sample data, for running the model *)

(** A service that answers from a list of prepared replies, one per
    request, and fails once the list is used up. *)
Definition scripted (w : list api_reply) (_ : request) : api_reply * list api_reply :=
  match w with
  | reply :: rest => (reply, rest)
  | [] => (APIRaises (APIError "Connection error."), [])
  end.

(** A stand-in for [datetime.fromisoformat]: it takes
    [YYYY-MM-DDTHH:MM:SS] with an optional [+HH:MM], digits unchecked
    for range. *)
Definition sample_fromisoformat (s : string) : option unit :=
  let shape := fix shape (pat s : string) : bool :=
    match pat, s with
    | EmptyString, EmptyString => true
    | String p pat', String c s' =>
        (if decide (p = "d"%char) then isdigit c
         else if decide (c = p) then true else false) && shape pat' s'
    | _, _ => false
    end in
  if shape "dddd-dd-ddTdd:dd:dd" s || shape "dddd-dd-ddTdd:dd:dd+dd:dd" s
  then Some tt else None.

Definition sample_email : email :=
  {[ "id" := Some "001";
     "from" := Some "angry.customer@example.com";
     "subject" := Some "Broken product received";
     "body" := Some "I received my order #12345 yesterday but it arrived completely damaged.";
     "timestamp" := Some "2024-03-15T10:30:00Z" ]}.

(** ** What a run of the pipeline depends on *)

(** The text [get_email_subject_and_body] builds. *)
Definition email_data (e : email) : string :=
  "Subject:" +:+ nl +:+ str_field e "subject" +:+ nl +:+ nl
  +:+ "Body:" +:+ nl +:+ str_field e "body".

(** What [get_classification] makes of a reply. *)
Definition classification_of (reply : api_reply) : option string :=
  match reply with
  | APICompletions (Some c :: _) => Some (rstrip_char "." (strip (lower c)))
  | _ => None
  end.

(** What [get_response] makes of a reply. *)
Definition response_of (reply : api_reply) : option string :=
  match reply with
  | APICompletions (c :: _) => c
  | _ => None
  end.

Definition classification_request (c : OpenAIClient) (prompt : string) : request :=
  {| req_model := model c; req_temperature := 0; req_messages := messages prompt |}.

Definition response_request (c : OpenAIClient) (prompt : string) : request :=
  {| req_model := model c; req_temperature := default_temperature;
     req_messages := messages prompt |}.

Definition required : gset string := required_fields (processor automation_system).

Definition categories : gset string := valid_categories (processor automation_system).

(** The request [classify_email] sends for an email. *)
Definition classify_request (e : email) : request :=
  classification_request (client (processor automation_system))
    (CLASSIFICATION_TEMPLATE (join ", " (elements categories)) (email_data e)).

(** The request [generate_response] sends for an email and a category. *)
Definition respond_request (e : email) (classification : string) : request :=
  response_request (client (processor automation_system))
    (RESPONSES_TEMPLATE classification
       (default "" (response_prompts !! classification)) (email_data e)).

(** The mock-service calls each handler makes. *)
Definition handler_services (h : handler) (e : email) (response : string)
    : list service_call :=
  let id := default None (e !! "id") in
  match h with
  | _handle_complaint =>
      [CreateUrgentTicket id "complaint" (email_data e); SendComplaintResponse id response]
  | _handle_inquiry => [SendStandardResponse id response]
  | _handle_feedback =>
      [LogCustomerFeedback id (email_data e); SendStandardResponse id response]
  | _handle_support_request | _handle_other =>
      [CreateSupportTicket id (email_data e); SendStandardResponse id response]
  end.

(** The dict [process_email] starts from. *)
Definition initial_result (id : option string) : result_dict :=
  {[ "email_id" := of_optional id;
     "success" := PyBool false;
     "classification" := PyNone;
     "response_sent" := PyBool false ]}.

Definition handler_for (classification : string) : handler :=
  default _handle_other (response_handlers automation_system !! classification).

(** The message of the [ValueError] raised on an empty response. *)
Definition no_response (id : option string) : string :=
  "Error while generating response for email with ID: " +:+ fmt id.

(** The result of an email that was classified but got no response. *)
Definition failed_result (id : option string) (classification : string) : result_dict :=
  <["classification" := PyStr classification]> (initial_result id).

(** The result of an email whose response went to a handler. *)
Definition sent_result (id : option string) (classification : string) : result_dict :=
  <["response_sent" := PyBool true]>
    (<["success" := PyBool true]> (failed_result id classification)).

(** ** The specification's vocabulary *)

(** The five fixed categories. *)
Definition fixed_categories : list string :=
  ["complaint"; "inquiry"; "feedback"; "support_request"; "other"].

(** The keys of the dict [process_email] returns. *)
Definition result_keys : gset string :=
  {[ "email_id"; "success"; "classification"; "response_sent" ]}.

(** The downstream actions the specification gives for a
    classification, with the arguments the handlers pass. *)
Definition routed (classification : string) (id : option string)
    (context response : string) : list service_call :=
  if decide (classification = "complaint") then
    [CreateUrgentTicket id "complaint" context; SendComplaintResponse id response]
  else if decide (classification = "inquiry") then
    [SendStandardResponse id response]
  else if decide (classification = "feedback") then
    [LogCustomerFeedback id context; SendStandardResponse id response]
  else
    [CreateSupportTicket id context; SendStandardResponse id response].

Section Outcomes.

Context {W : Type} (create : W -> request -> api_reply * W).

(** [m] leaves the component [f] of the state as it finds it. *)
Definition keeps {A X} (f : state W -> X) (m : M W A) : Prop :=
  forall s, f (m s).2 = f s.

(** A component that no output or request changes. *)
Definition off_trace {X} (f : state W -> X) : Prop :=
  forall sys r w t w' t', f {| system := sys; result := r; world := w; trace := t |}
                        = f {| system := sys; result := r; world := w'; trace := t' |}.

(** What [classify_email] returns when the service is in state [w]. *)
Definition classified (e : email) (w : W) : option string :=
  let raw := classification_of (create w (classify_request e)).1 in
  if in_categories raw categories then raw else None.

(** The category the pipeline settles on: [classify_email(email) or "other"]. *)
Definition settled (e : email) (w : W) : string :=
  or_else (classified e w) "other".

(** The service state once the classification request is answered. *)
Definition world_classified (e : email) (w : W) : W :=
  (create w (classify_request e)).2.

(** The reply to the response request. *)
Definition response_reply (e : email) (w : W) : api_reply * W :=
  create (world_classified e w) (respond_request e (settled e w)).

(** A service whose reply to a request does not depend on its state,
    that is, on the requests it has answered before. *)
Definition stateless_replies : Prop :=
  forall w w' req, (create w req).1 = (create w' req).1.

End Outcomes.

(** The sample email with a newline after the three digits of its [id]. *)
Definition email_with_newline_id : email :=
  <["id" := Some ("123" +:+ nl)]> sample_email.

(** Replies prepared for a scripted service: a category and a response. *)
Definition complaint_then_apology : list api_reply :=
  [APICompletions [Some " Complaint. "]; APICompletions [Some "We are sorry."]].

(** A category, after which the service fails. *)
Definition complaint_then_failure : list api_reply :=
  [APICompletions [Some "complaint"]].

(** A service that gives one and the same reply to every request. *)
Definition constant_service (w : unit) (_ : request) : api_reply * unit :=
  (APICompletions [Some "inquiry"], w).

(** The sample email without its ['id']. *)
Definition email_without_id : email := delete "id" sample_email.

(** A running program whose service will answer twice. *)
Definition answering_start : state (list api_reply) :=
  ready ∅ complaint_then_apology [].

(** A running program whose service will fail on the response request. *)
Definition failing_start : state (list api_reply) :=
  ready ∅ complaint_then_failure [].

(** The state in which the [try] block of [process_email] raises, when
    the sample email is processed from [failing_start]. *)
Definition failing_raise : state (list api_reply) :=
  (process_email_try scripted sample_fromisoformat sample_email
     (upd failing_start (initial_result (Some "001")) (world failing_start) [])).2.

(** ** The rest of the program: [load_data] and [run_demonstration] *)

(** [s.endswith(suffix)] *)
Definition endswith (suffix s : string) : bool :=
  let n := String.length s in
  let m := String.length suffix in
  (m <=? n)%nat && String.eqb (substring (n - m) m s) suffix.

(** What [load_data] is given ([data_source: Any]): a list, a [str],
    or some other object, of which the code asks whether it has a
    callable [to_dict] and takes the [str()] for an error message. *)
Inductive data_source (R : Type) :=
| DataList (records : list R)
| DataPath (path : string)
| DataObject (has_to_dict : bool) (str : string).
Arguments DataList {R} records.
Arguments DataPath {R} path.
Arguments DataObject {R} has_to_dict str.

(** What leaves [load_data] and [run_demonstration] as an exception:
    one of the pipeline's, or the [UnboundLocalError] of a local
    variable read before it is bound. *)
Inductive raised :=
| Exn (e : exn)
| UnboundLocalError (name : string).

Inductive finished (A : Type) :=
| Finishes (a : A)
| Fails (x : raised).
Arguments Finishes {A} a.
Arguments Fails {A} x.

Section LoadData.

(** The records of a data source, whatever they are: [load_data] does
    not look into them. *)
Context {R : Type}.

(** [os.path.exists] *)
Variable path_exists : string -> bool.

(** [pd.read_json(path).to_dict(orient='records')] *)
Variable read_json : string -> outcome (list R).

Definition read_records (path : string) : finished (list R) :=
  match read_json path with
  | Returns raw_emails => Finishes raw_emails
  | Raises e => Fails (Exn e)
  end.

Definition load_data (source : data_source R) : finished (list R) :=
  match source with
  | DataList records => Finishes records
  | DataPath path =>
      if path_exists path then
        if endswith ".json" path then read_records path
        else if endswith ".csv" path then read_records path
        else Fails (Exn (ValueError ("Invalid file format " +:+ path)))
      else
        (* a [str] has no [to_dict] *)
        Fails (Exn (ValueError ("Invalid data type for: " +:+ path)))
  | DataObject true _ =>
      (* [raw_emails = df.to_dict(orient='records')]: [df] is a local
         variable that no statement on this path has bound *)
      Fails (UnboundLocalError "df")
  | DataObject false str =>
      Fails (Exn (ValueError ("Invalid data type for: " +:+ str)))
  end.

End LoadData.

Section Demonstration.

Context {W : Type} (create : W -> request -> api_reply * W).
Context {datetime : Type} (fromisoformat : string -> option datetime).
Variable path_exists : string -> bool.
Variable read_json : string -> outcome (list email).

(** [str(df[["email_id", "success", "classification", "response_sent"]])]
    for [df = pd.DataFrame(results)]: the table pandas prints, or the
    exception it raises. *)
Variable summary : list result_dict -> outcome string.

(** [print(a)] *)
Definition print1 (a : string) : M W unit := emit (EvPrint (a +:+ nl)).

(** The [for] loop of [run_demonstration], with the list [results] as
    built so far. *)
Fixpoint process_all (emails : list email) (results : list result_dict)
    : M W (list result_dict) :=
  match emails with
  | [] => mret results
  | e :: rest =>
      id ← getitem e "id";
      logger INFO (nl +:+ "Processing email " +:+ fmt id +:+ "...");;
      result ← process_email create fromisoformat e;
      process_all rest (results ++ [result])
  end.

(** [run_demonstration], given the data [sample_emails] and the
    connection [w] that [OpenAI()] opens. The data frame it returns is
    given by its rows. *)
Definition run_demonstration (sample_emails : data_source email) (w : W)
    : finished (list result_dict) * state W :=
  let s := ready ∅ w [] in
  match load_data path_exists read_json sample_emails with
  | Fails x => (Fails x, s)
  | Finishes email_to_process =>
      match (results ← process_all email_to_process [];
             print1 (nl +:+ "Processing Summary:");;
             table ← (fun s => (summary results, s));
             print1 table;;
             mret results) s with
      | (Returns df, s') => (Finishes df, s')
      | (Raises e, s') => (Fails (Exn e), s')
      end
  end.

End Demonstration.

(** ** More ways to read a string, a trace and a run *)

(** Every character of [s] satisfies [p]. *)
Fixpoint all_of (p : ascii -> bool) (s : string) : bool :=
  match s with
  | EmptyString => true
  | String c s' => p c && all_of p s'
  end.

(** ["." * n] *)
Fixpoint periods (n : nat) : string :=
  match n with
  | O => EmptyString
  | S n' => String "." (periods n')
  end.

(** The responses sent out, each with the email id it is sent for. *)
Definition sent (t : list event) : list (option string * string) :=
  omap (fun ev => match ev with
                  | EvService (SendComplaintResponse id response)
                  | EvService (SendStandardResponse id response) => Some (id, response)
                  | _ => None
                  end) t.

(** The email [e] has the key ['id']. *)
Definition has_id (e : email) : Prop := is_Some (e !! "id").

(** The value under ['id'], for the result dict. *)
Definition id_of (e : email) : pyval := of_optional (default None (e !! "id")).

(** A sender other than the sample email's. *)
Definition sample_email_from_elsewhere : email :=
  <["from" := Some "someone.else@example.org"]>
    (<["timestamp" := Some "2025-01-01T00:00:00"]> sample_email).

(** A file system with one file, and a reader that yields the sample
    email from it. *)
Definition one_file (path path' : string) : bool := String.eqb path path'.

Definition reads_sample (_ : string) : outcome (list email) := Returns [sample_email].

(** A rendering of the summary table that always succeeds. *)
Definition sample_summary (results : list result_dict) : outcome string :=
  Returns "(the table)".

(** Replies for a scripted service: a category named with decoration,
    and one with a space before its period. *)
Definition decorated_complaint : list api_reply :=
  [APICompletions [Some (" " +:+ "Complaint" +:+ periods 2 +:+ nl)]].

Definition spaced_complaint : list api_reply :=
  [APICompletions [Some ("complaint" +:+ " " +:+ ".")]].



Section Properties.

Context {W : Type} (create : W -> request -> api_reply * W).
Context {datetime : Type} (fromisoformat : string -> option datetime).

Implicit Types (s : state W) (e : email) (l : list event).

(** *** Running the monad *)

Lemma Returns_inj {A} (a b : A) : Returns a = Returns b -> a = b.
Proof. intros Heq. by injection Heq. Qed.

Lemma run_bind {A B} (m : M W A) (f : A -> M W B) s :
  (m ≫= f) s = match m s with
               | (Returns a, s') => f a s'
               | (Raises x, s') => (Raises x, s')
               end.
Proof. reflexivity. Qed.

Lemma run_try {A} (m : M W A) (h : exn -> M W A) s :
  try_except m h s = match m s with
                     | (Returns a, s') => (Returns a, s')
                     | (Raises x, s') => h x s'
                     end.
Proof. reflexivity. Qed.

Lemma upd_upd s r w l r' w' l' :
  upd (upd s r w l) r' w' l' = upd s r' w' (l ++ l').
Proof. unfold upd; simpl. by rewrite app_assoc. Qed.

Lemma upd_id s : upd s (result s) (world s) [] = s.
Proof. destruct s; unfold upd; simpl. by rewrite app_nil_r. Qed.

(** *** Frames: what a computation leaves as it is *)

Lemma off_trace_system : off_trace (@system W).
Proof. by intros ??????. Qed.

Lemma off_trace_result : off_trace (@result W).
Proof. by intros ??????. Qed.

Section Frames.
Context {X : Type} (f : state W -> X) (Hf : off_trace f).

Lemma keeps_ret {A} (a : A) : keeps f (mret a).
Proof. by intros s. Qed.

Lemma keeps_raise {A} x : keeps f (@raise W A x).
Proof. by intros s. Qed.

Lemma keeps_gets {A} (g : state W -> A) : keeps f (gets g).
Proof. by intros s. Qed.

Lemma keeps_bind {A B} (m : M W A) (k : A -> M W B) :
  keeps f m -> (forall a, keeps f (k a)) -> keeps f (m ≫= k).
Proof.
  intros Hm Hk s. rewrite run_bind. specialize (Hm s).
  destruct (m s) as [[a|x] s']; simpl in *; [by rewrite Hk | done].
Qed.

Lemma keeps_try {A} (m : M W A) (h : exn -> M W A) :
  keeps f m -> (forall x, keeps f (h x)) -> keeps f (try_except m h).
Proof.
  intros Hm Hh s. rewrite run_try. specialize (Hm s).
  destruct (m s) as [[a|x] s']; simpl in *; [done | by rewrite Hh].
Qed.

Lemma keeps_emit ev : keeps f (emit ev).
Proof. intros [sys r w t]. unfold emit; simpl. apply Hf. Qed.

Lemma keeps_logger lvl msg : keeps f (logger lvl msg).
Proof. apply keeps_emit. Qed.

Lemma keeps_print2 a b : keeps f (print2 a b).
Proof. apply keeps_emit. Qed.

Lemma keeps_getitem {V} (d : gmap string V) k : keeps f (getitem d k).
Proof. unfold getitem. destruct (d !! k); [apply keeps_ret | apply keeps_raise]. Qed.

Lemma keeps_expect_str v x : keeps f (expect_str v x).
Proof. destruct v; [apply keeps_ret | apply keeps_raise]. Qed.

Lemma keeps_create op req : keeps f (chat_completions_create create op req).
Proof.
  intros [sys r w t]. unfold chat_completions_create; simpl.
  destruct (create w req) as [[x|choices] w']; simpl; apply Hf.
Qed.

Lemma keeps_first_content choices : keeps f (first_content choices).
Proof. destruct choices; [apply keeps_raise | apply keeps_ret]. Qed.

End Frames.

Ltac frame_step :=
  first
    [ assumption
    | apply off_trace_system
    | apply off_trace_result
    | apply keeps_bind; [| intros ?]
    | apply keeps_try; [| intros ?]
    | apply keeps_ret
    | apply keeps_raise
    | apply keeps_gets
    | apply keeps_logger
    | apply keeps_emit
    | apply keeps_print2
    | apply keeps_getitem
    | apply keeps_expect_str
    | apply keeps_create
    | apply keeps_first_content
    | match goal with
      | |- keeps _ (if ?b then _ else _) => destruct b
      | |- keeps _ (match ?x with _ => _ end) => destruct x
      end ].

Ltac frame := repeat frame_step.

Section MethodFrames.
Context {X : Type} (f : state W -> X) (Hf : off_trace f).

Lemma keeps_get_classification c e prompt :
  keeps f (get_classification create c e prompt).
Proof. unfold get_classification. frame. Qed.

Lemma keeps_get_response c e prompt temperature :
  keeps f (get_response create c e prompt temperature).
Proof. unfold get_response. frame. Qed.

Lemma keeps_check_required_fields fields e :
  keeps f (check_required_fields fields e).
Proof. induction fields as [|field rest IH]; simpl; frame. Qed.

Lemma keeps_validate_email_format e :
  keeps f (validate_email_format fromisoformat e).
Proof.
  unfold validate_email_format.
  frame; try apply keeps_check_required_fields; frame.
Qed.

Lemma keeps_get_email_subject_and_body e :
  keeps f (get_email_subject_and_body e).
Proof. unfold get_email_subject_and_body. frame. Qed.

Lemma keeps_classify_email e : keeps f (classify_email create e).
Proof.
  unfold classify_email.
  frame; first [apply keeps_get_email_subject_and_body | apply keeps_get_classification | idtac];
    frame.
Qed.

Lemma keeps_generate_response e c : keeps f (generate_response create e c).
Proof.
  unfold generate_response.
  frame; first [apply keeps_get_email_subject_and_body | apply keeps_get_response | idtac];
    frame.
Qed.

Lemma keeps_require_response e response : keeps f (require_response e response).
Proof. unfold require_response. frame. Qed.

Lemma keeps_call_handler h e response : keeps f (call_handler h e response).
Proof.
  unfold call_handler, handler_body, create_urgent_ticket, create_support_ticket,
    send_complaint_response, send_standard_response, log_customer_feedback.
  frame; try apply keeps_get_email_subject_and_body; frame.
Qed.

End MethodFrames.

(** *** What each step returns and adds to the trace *)

Lemma calls_app l1 l2 : calls (l1 ++ l2) = calls l1 ++ calls l2.
Proof. apply filter_app. Qed.

Lemma calls_cons ev l :
  calls (ev :: l) = if is_output ev then calls l else ev :: calls l.
Proof. unfold calls. rewrite filter_cons. by destruct (is_output ev). Qed.

Lemma calls_nil : calls [] = [].
Proof. reflexivity. Qed.

(** Normalise [calls] of an explicit trace. *)
Ltac calls_norm :=
  rewrite ?calls_app, ?calls_cons, ?calls_nil; cbn [is_output app].

Lemma run_emit ev s : emit ev s = (Returns tt, upd s (result s) (world s) [ev]).
Proof. reflexivity. Qed.

Lemma run_logger lvl msg s :
  logger lvl msg s = (Returns tt, upd s (result s) (world s) [EvLog lvl msg]).
Proof. reflexivity. Qed.

Lemma run_getitem {V} (d : gmap string V) k v s :
  d !! k = Some v -> getitem d k s = (Returns v, s).
Proof. intros H. unfold getitem. by rewrite H. Qed.

Lemma run_getitem_missing {V} (d : gmap string V) k s :
  d !! k = None -> getitem d k s = (@Raises V (KeyError k), s).
Proof. intros H. unfold getitem. by rewrite H. Qed.

Lemma present_lookup e field :
  present e field = true -> e !! field = Some (Some (str_field e field)).
Proof.
  unfold present, str_field. by destruct (e !! field) as [[v|]|].
Qed.

Lemma run_check_required_fields fields e s :
  exists logs, calls logs = []
    /\ check_required_fields fields e s
       = (Returns (forallb (present e) fields), upd s (result s) (world s) logs).
Proof.
  induction fields as [|field rest IH]; simpl.
  - exists []. by rewrite upd_id.
  - unfold present at 1. destruct (e !! field) as [[v|]|]; simpl; [exact IH | ..];
      (exists [EvLog WARNING ("Required field missing: " +:+ field)];
       split; [reflexivity|]);
      by rewrite run_bind, run_logger.
Qed.

Lemma run_get_email_subject_and_body e s :
  present e "subject" = true -> present e "body" = true ->
  get_email_subject_and_body e s
  = (Returns (email_data e),
     upd s (result s) (world s) [EvPrint ("result: " +:+ " " +:+ email_data e +:+ nl)]).
Proof.
  intros Hs Hb. apply present_lookup in Hs, Hb.
  unfold get_email_subject_and_body.
  rewrite run_bind, (run_getitem _ _ _ _ Hs).
  rewrite run_bind, (run_getitem _ _ _ _ Hb).
  reflexivity.
Qed.

Lemma run_create op req s :
  chat_completions_create create op req s
  = (match (create (world s) req).1 with
     | APIRaises x => Raises x
     | APICompletions choices => Returns choices
     end,
     upd s (result s) (create (world s) req).2 [EvRequest op req]).
Proof.
  unfold chat_completions_create.
  by destruct (create (world s) req) as [[x|choices] w'].
Qed.

Lemma run_get_classification c e prompt id s :
  e !! "id" = Some id ->
  let req := classification_request c prompt in
  exists logs, calls logs = []
    /\ get_classification create c e prompt s
       = (Returns (classification_of (create (world s) req).1),
          upd s (result s) (create (world s) req).2
            (EvRequest Classification req :: logs)).
Proof.
  intros Hid req. unfold get_classification.
  rewrite run_try, run_bind, run_create. fold (classification_request c prompt). fold req.
  destruct (create (world s) req) as [[x|[|[cl|] rest]] w'] eqn:Hc; simpl.
  all: try (rewrite run_bind, (run_getitem _ _ _ _ Hid); simpl;
            exists [EvLog WARNING ("Error while classifying ID: " +:+ fmt id)];
            split; [reflexivity|]; rewrite run_bind, run_logger;
            unfold mret, M_ret, upd; simpl; by rewrite <- app_assoc).
  exists []. split; [reflexivity|]. reflexivity.
Qed.

Lemma run_get_response c e prompt id s :
  e !! "id" = Some id ->
  let req := response_request c prompt in
  exists logs, calls logs = []
    /\ get_response create c e prompt default_temperature s
       = (Returns (response_of (create (world s) req).1),
          upd s (result s) (create (world s) req).2
            (EvRequest Response req :: logs)).
Proof.
  intros Hid req. unfold get_response.
  rewrite run_try, run_bind, run_create. fold (response_request c prompt). fold req.
  destruct (create (world s) req) as [[x|[|cl rest]] w'] eqn:Hc; simpl.
  all: try (rewrite run_bind, (run_getitem _ _ _ _ Hid); simpl;
            exists [EvLog WARNING ("Error while generating response ID: " +:+ fmt id)];
            split; [reflexivity|]; rewrite run_bind, run_logger;
            unfold mret, M_ret, upd; simpl; by rewrite <- app_assoc).
  exists []. split; [reflexivity|]. reflexivity.
Qed.

Lemma elem_of_categories c :
  c ∈ categories
  <-> c = "complaint" \/ c = "inquiry" \/ c = "feedback"
      \/ c = "support_request" \/ c = "other".
Proof.
  unfold categories; simpl.
  rewrite !elem_of_union, !elem_of_singleton. tauto.
Qed.

Lemma elem_of_required field :
  field ∈ required
  <-> field = "id" \/ field = "from" \/ field = "subject"
      \/ field = "body" \/ field = "timestamp".
Proof.
  unfold required; simpl.
  rewrite !elem_of_union, !elem_of_singleton. tauto.
Qed.

Lemma categories_response_prompts c :
  c ∈ categories -> is_Some (response_prompts !! c).
Proof.
  rewrite elem_of_categories.
  intros [->|[->|[->|[->| ->]]]]; eexists; vm_compute; reflexivity.
Qed.

#[local] Opaque required categories.

Lemma required_present e field :
  field ∈ required ->
  forallb (present e) (elements required) = true -> present e field = true.
Proof.
  intros Hin Hall. rewrite forallb_forall in Hall. apply Hall.
  apply (proj1 (list_elem_of_In _ _)). by apply elem_of_elements.
Qed.

Lemma run_validate_email_format e s :
  system s = automation_system ->
  exists logs, calls logs = []
    /\ validate_email_format fromisoformat e s
       = (Returns (accepted fromisoformat required e), upd s (result s) (world s) logs).
Proof.
  intros Hsys. unfold validate_email_format, accepted.
  rewrite run_bind. unfold gets at 1. rewrite Hsys.
  change (required_fields (processor automation_system)) with required.
  rewrite run_bind.
  destruct (run_check_required_fields (elements required) e s) as (logs & Hlogs & ->).
  pose proof (required_present e "id" ltac:(by vm_compute)) as Hid.
  pose proof (required_present e "body" ltac:(by vm_compute)) as Hbody.
  pose proof (required_present e "timestamp" ltac:(by vm_compute)) as Hts.
  destruct (forallb (present e) (elements required)); simpl.
  2: { exists logs. split; [exact Hlogs | reflexivity]. }
  specialize (Hid eq_refl). specialize (Hbody eq_refl). specialize (Hts eq_refl).
  apply present_lookup in Hid, Hbody, Hts.
  rewrite run_bind, (run_getitem _ _ _ _ Hid). rewrite run_bind. simpl.
  destruct (re_match_3_digits (str_field e "id")) eqn:Hre; simpl.
  2: { exists (logs ++ [EvLog WARNING ("Invalid ID format " +:+ str_field e "id"
                                      +:+ " - 3 digits required")]).
       split; [by rewrite calls_app, Hlogs|].
       rewrite run_bind, run_logger. by rewrite upd_upd. }
  rewrite run_bind, (run_getitem _ _ _ _ Hbody). rewrite run_bind. simpl.
  destruct (bool_decide (split (str_field e "body") = [])) eqn:Hsplit; simpl.
  { exists (logs ++ [EvLog WARNING ("Body must not be empty " +:+ str_field e "id")]).
    split; [by rewrite calls_app, Hlogs|].
    rewrite run_bind, (run_getitem _ _ _ _ Hid).
    rewrite run_bind, run_logger. by rewrite upd_upd. }
  rewrite run_try, run_bind, (run_getitem _ _ _ _ Hts). rewrite run_bind. simpl.
  destruct (fromisoformat _) as [d|] eqn:Hparse; simpl.
  { exists logs. split; [done|]. reflexivity. }
  exists (logs ++ [EvLog WARNING ("Invalid timestamp format " +:+ str_field e "timestamp")]).
  split; [by rewrite calls_app, Hlogs|].
  rewrite run_bind, (run_getitem _ _ _ _ Hts).
  rewrite run_bind, run_logger. by rewrite upd_upd.
Qed.

Lemma run_classify_email e id s :
  system s = automation_system ->
  e !! "id" = Some id -> present e "subject" = true -> present e "body" = true ->
  exists l, calls l = [EvRequest Classification (classify_request e)]
    /\ classify_email create e s
       = (Returns (classified create e (world s)),
          upd s (result s) (create (world s) (classify_request e)).2 l).
Proof.
  intros Hsys Hid Hsubject Hbody. unfold classify_email.
  rewrite run_bind. unfold gets at 1. rewrite Hsys.
  change (valid_categories (processor automation_system)) with categories.
  rewrite run_bind, (run_get_email_subject_and_body _ _ Hsubject Hbody).
  rewrite run_bind.
  destruct (run_get_classification (client (processor automation_system)) e
              (CLASSIFICATION_TEMPLATE (join ", " (elements categories)) (email_data e))
              id (upd s (result s) (world s)
                    [EvPrint ("result: " +:+ " " +:+ email_data e +:+ nl)]) Hid)
    as (logs & Hlogs & ->).
  fold (classify_request e). unfold classified. cbn [world upd result].
  destruct (in_categories _ categories).
  - eexists. split; last by rewrite upd_upd.
    calls_norm. by rewrite Hlogs.
  - rewrite run_bind, (run_getitem _ _ _ _ Hid), run_bind, run_logger.
    eexists. split; last by rewrite !upd_upd.
    calls_norm. by rewrite Hlogs.
Qed.

Lemma run_generate_response e id classification s :
  system s = automation_system ->
  e !! "id" = Some id -> present e "subject" = true -> present e "body" = true ->
  is_Some (response_prompts !! classification) ->
  let req := respond_request e classification in
  exists l, calls l = [EvRequest Response req]
    /\ generate_response create e classification s
       = (Returns (response_of (create (world s) req).1),
          upd s (result s) (create (world s) req).2 l).
Proof.
  intros Hsys Hid Hsubject Hbody [instruction Hinstr] req.
  unfold generate_response.
  rewrite run_bind. unfold gets at 1. rewrite Hsys.
  rewrite run_bind, (run_getitem _ _ _ _ Hinstr).
  rewrite run_bind, (run_get_email_subject_and_body _ _ Hsubject Hbody).
  rewrite run_bind.
  destruct (run_get_response (client (processor automation_system)) e
              (RESPONSES_TEMPLATE classification instruction (email_data e))
              id (upd s (result s) (world s)
                    [EvPrint ("result: " +:+ " " +:+ email_data e +:+ nl)]) Hid)
    as (logs & Hlogs & ->).
  subst req. unfold respond_request. rewrite Hinstr. cbn [default world upd result].
  eexists. split; last by rewrite upd_upd.
  calls_norm. by rewrite Hlogs.
Qed.

Ltac run_service :=
  intros; rewrite run_bind, run_emit, run_logger, upd_upd; reflexivity.

Lemma run_send_complaint_response id response s :
  send_complaint_response id response s
  = (Returns tt, upd s (result s) (world s)
       [EvService (SendComplaintResponse id response);
        EvLog INFO ("Sending complaint response for email " +:+ fmt id)]).
Proof. unfold send_complaint_response. run_service. Qed.

Lemma run_send_standard_response id response s :
  send_standard_response id response s
  = (Returns tt, upd s (result s) (world s)
       [EvService (SendStandardResponse id response);
        EvLog INFO ("Sending standard response for email " +:+ fmt id)]).
Proof. unfold send_standard_response. run_service. Qed.

Lemma run_create_urgent_ticket id category context s :
  create_urgent_ticket id category context s
  = (Returns tt, upd s (result s) (world s)
       [EvService (CreateUrgentTicket id category context);
        EvLog INFO ("Creating urgent ticket for email " +:+ fmt id)]).
Proof. unfold create_urgent_ticket. run_service. Qed.

Lemma run_create_support_ticket id context s :
  create_support_ticket id context s
  = (Returns tt, upd s (result s) (world s)
       [EvService (CreateSupportTicket id context);
        EvLog INFO ("Creating support ticket for email " +:+ fmt id)]).
Proof. unfold create_support_ticket. run_service. Qed.

Lemma run_log_customer_feedback id feedback s :
  log_customer_feedback id feedback s
  = (Returns tt, upd s (result s) (world s)
       [EvService (LogCustomerFeedback id feedback);
        EvLog INFO ("Logging feedback for email " +:+ fmt id)]).
Proof. unfold log_customer_feedback. run_service. Qed.

Lemma run_call_handler h e id response s :
  e !! "id" = Some id -> present e "subject" = true -> present e "body" = true ->
  exists l, calls l = EvDispatch h :: map EvService (handler_services h e response)
    /\ call_handler h e response s = (Returns tt, upd s (result s) (world s) l).
Proof.
  intros Hid Hsubject Hbody.
  unfold call_handler, handler_services, handler_body.
  rewrite Hid. cbn [default].
  destruct h;
    repeat first
      [ rewrite run_bind
      | rewrite run_emit
      | rewrite (run_getitem _ _ _ _ Hid)
      | rewrite (run_get_email_subject_and_body _ _ Hsubject Hbody)
      | rewrite run_create_urgent_ticket
      | rewrite run_create_support_ticket
      | rewrite run_log_customer_feedback
      | rewrite run_send_complaint_response
      | rewrite run_send_standard_response
      | rewrite upd_upd
      | progress cbn [upd result world] ];
    (eexists; split; last reflexivity); reflexivity.
Qed.

(** *** The whole pipeline on a program as constructed *)

Lemma system_upd s r w l : system (upd s r w l) = system s.
Proof. reflexivity. Qed.

Lemma result_upd s r w l : result (upd s r w l) = r.
Proof. reflexivity. Qed.

Lemma world_upd s r w l : world (upd s r w l) = w.
Proof. reflexivity. Qed.

Lemma run_ret {A} (a : A) s : (mret a : M W A) s = (Returns a, s).
Proof. reflexivity. Qed.

Lemma run_gets {A} (g : state W -> A) s : gets g s = (Returns (g s), s).
Proof. reflexivity. Qed.

Lemma run_set_result r s :
  set_result r s = (Returns tt, upd s r (world s) []).
Proof. unfold set_result, upd. by rewrite app_nil_r. Qed.

Lemma settled_categories e w : settled create e w ∈ categories.
Proof.
  unfold settled, classified.
  destruct (classification_of _) as [c|] eqn:Hc; simpl.
  - destruct (bool_decide (c ∈ categories)) eqn:Hin; simpl.
    + apply bool_decide_eq_true in Hin.
      destruct (is_empty c); [|done]. apply elem_of_categories. tauto.
    + apply elem_of_categories. tauto.
  - apply elem_of_categories. tauto.
Qed.

Lemma accepted_present e :
  accepted fromisoformat required e = true ->
  present e "subject" = true /\ present e "body" = true.
Proof.
  unfold accepted. rewrite !andb_true_iff. intros [[[Hall _] _] _].
  split; (apply required_present; [by vm_compute | exact Hall]).
Qed.

Ltac upd_norm := rewrite ?upd_upd, ?system_upd, ?result_upd, ?world_upd.

(** The [try] block up to the check of the response, on an accepted
    email: the result holds the category, both requests are made. *)
Ltac try_block_prefix e id s Hsys Hid Hacc l2 Hl2 :=
  let logs := fresh "logs" in
  let Hlogs := fresh "Hlogs" in
  let l1 := fresh "l1" in
  let Hl1 := fresh "Hl1" in
  let Hsubject := fresh "Hsubject" in
  let Hbody := fresh "Hbody" in
  destruct (accepted_present e Hacc) as [Hsubject Hbody];
  unfold process_email_try;
  rewrite run_bind;
  destruct (run_validate_email_format e s Hsys) as (logs & Hlogs & ->);
  rewrite Hacc; cbn [negb];
  rewrite run_bind;
  destruct (run_classify_email e id (upd s (result s) (world s) logs) Hsys Hid Hsubject Hbody)
    as (l1 & Hl1 & ->);
  upd_norm;
  rewrite run_bind, run_gets, run_bind, run_set_result; upd_norm;
  rewrite run_bind;
  fold (settled create e (world s));
  match goal with |- context [generate_response create e _ ?st] =>
    destruct (run_generate_response e id (settled create e (world s)) st
                Hsys Hid Hsubject Hbody
                (categories_response_prompts _ (settled_categories e (world s))))
      as (l2 & Hl2 & ->)
  end;
  upd_norm;
  fold (world_classified create e (world s)); fold (response_reply create e (world s)).

Lemma run_try_rejected e id s :
  system s = automation_system -> e !! "id" = Some id ->
  accepted fromisoformat required e = false ->
  exists logs, calls logs = []
    /\ process_email_try create fromisoformat e s
       = (Returns (result s), upd s (result s) (world s) logs).
Proof.
  intros Hsys Hid Hacc. unfold process_email_try.
  rewrite run_bind.
  destruct (run_validate_email_format e s Hsys) as (logs & Hlogs & ->).
  rewrite Hacc. cbn [negb].
  rewrite run_bind, (run_getitem _ _ _ _ Hid), run_bind, run_logger, run_gets.
  upd_norm. eexists. split; last reflexivity.
  calls_norm. by rewrite Hlogs.
Qed.

Lemma run_try_failed e id s :
  system s = automation_system -> e !! "id" = Some id ->
  accepted fromisoformat required e = true ->
  default "" (response_of (response_reply create e (world s)).1) = "" ->
  let r := <["classification" := PyStr (settled create e (world s))]> (result s) in
  exists l,
    calls l = [EvRequest Classification (classify_request e);
               EvRequest Response (respond_request e (settled create e (world s)))]
    /\ process_email_try create fromisoformat e s
       = (Raises (ValueError (no_response id)),
          upd s r (response_reply create e (world s)).2 l).
Proof.
  intros Hsys Hid Hacc Hresp r.
  try_block_prefix e id s Hsys Hid Hacc l2 Hl2.
  rewrite run_bind. unfold require_response.
  destruct (response_of _) as [[|c response]|]; [| discriminate Hresp |];
    cbn [is_empty];
    rewrite run_bind, (run_getitem _ _ _ _ Hid);
    (eexists; split; last reflexivity);
    calls_norm; rewrite Hlogs, Hl1, Hl2; reflexivity.
Qed.

Lemma run_try_sent e id response s :
  system s = automation_system -> e !! "id" = Some id ->
  accepted fromisoformat required e = true ->
  response_of (response_reply create e (world s)).1 = Some response ->
  response <> "" ->
  let c := settled create e (world s) in
  let r := <["response_sent" := PyBool true]>
             (<["success" := PyBool true]>
                (<["classification" := PyStr c]> (result s))) in
  exists l,
    calls l = [EvRequest Classification (classify_request e);
               EvRequest Response (respond_request e c);
               EvDispatch (handler_for c)]
              ++ map EvService (handler_services (handler_for c) e response)
    /\ process_email_try create fromisoformat e s
       = (Returns r, upd s r (response_reply create e (world s)).2 l).
Proof.
  intros Hsys Hid Hacc Hresp Hne c r.
  try_block_prefix e id s Hsys Hid Hacc l2 Hl2.
  rewrite run_bind, Hresp. unfold require_response.
  destruct response as [|ch response]; [by destruct Hne|]. cbn [is_empty].
  rewrite run_ret.
  rewrite run_bind, run_gets. upd_norm. rewrite Hsys.
  fold (handler_for (settled create e (world s))).
  rewrite run_bind.
  match goal with |- context [call_handler ?h e ?resp ?st] =>
    destruct (run_call_handler h e id resp st Hid Hsubject Hbody) as (l3 & Hl3 & ->)
  end.
  upd_norm.
  rewrite run_bind, run_gets, run_bind, run_set_result, run_gets. upd_norm.
  eexists; split; last reflexivity.
  calls_norm. rewrite Hlogs, Hl1, Hl2, Hl3, !app_nil_r. reflexivity.
Qed.

Lemma run_process_email_except e id err s :
  e !! "id" = Some id ->
  process_email_except e err s
  = (Returns (result s),
     upd s (result s) (world s)
       [EvLog ERROR ("Error while processing email with ID: " +:+ fmt id);
        EvService (CreateSupportTicket id ("Error: " +:+ exn_str err));
        EvLog INFO ("Creating support ticket for email " +:+ fmt id)]).
Proof.
  intros Hid. unfold process_email_except.
  rewrite run_bind, (run_getitem _ _ _ _ Hid), run_bind, run_logger.
  rewrite run_bind, (run_getitem _ _ _ _ Hid), run_bind, run_create_support_ticket.
  rewrite run_gets. upd_norm. reflexivity.
Qed.

(** [process_email] once [email['id']] is read: the [try] block runs
    from the initial [result]. *)
Lemma run_process_email e id s :
  e !! "id" = Some id ->
  process_email create fromisoformat e s
  = try_except (process_email_try create fromisoformat e) (process_email_except e)
      (upd s (initial_result id) (world s) []).
Proof.
  intros Hid. unfold process_email.
  rewrite run_bind, (run_getitem _ _ _ _ Hid), run_bind.
  fold (initial_result id). by rewrite run_set_result.
Qed.

Lemma process_email_missing e s :
  e !! "id" = None ->
  process_email create fromisoformat e s = (Raises (KeyError "id"), s).
Proof.
  intros Hid. unfold process_email.
  by rewrite run_bind, (run_getitem_missing _ _ _ Hid).
Qed.

Lemma process_email_rejected e id s :
  system s = automation_system -> e !! "id" = Some id ->
  accepted fromisoformat required e = false ->
  exists logs, calls logs = []
    /\ process_email create fromisoformat e s
       = (Returns (initial_result id), upd s (initial_result id) (world s) logs).
Proof.
  intros Hsys Hid Hacc. rewrite (run_process_email _ _ _ Hid), run_try.
  destruct (run_try_rejected e id (upd s (initial_result id) (world s) [])
              Hsys Hid Hacc) as (logs & Hlogs & ->).
  upd_norm. exists ([] ++ logs). split; [exact Hlogs | reflexivity].
Qed.

Lemma process_email_failed e id s :
  system s = automation_system -> e !! "id" = Some id ->
  accepted fromisoformat required e = true ->
  default "" (response_of (response_reply create e (world s)).1) = "" ->
  let r := <["classification" := PyStr (settled create e (world s))]> (initial_result id) in
  exists l,
    calls l = [EvRequest Classification (classify_request e);
               EvRequest Response (respond_request e (settled create e (world s)));
               EvService (CreateSupportTicket id ("Error: " +:+ no_response id))]
    /\ process_email create fromisoformat e s
       = (Returns r, upd s r (response_reply create e (world s)).2 l).
Proof.
  intros Hsys Hid Hacc Hresp r. rewrite (run_process_email _ _ _ Hid), run_try.
  destruct (run_try_failed e id (upd s (initial_result id) (world s) [])
              Hsys Hid Hacc Hresp) as (l & Hl & ->).
  rewrite (run_process_email_except _ _ _ _ Hid).
  upd_norm. eexists. split; last reflexivity.
  calls_norm. rewrite Hl. reflexivity.
Qed.

Lemma process_email_sent e id response s :
  system s = automation_system -> e !! "id" = Some id ->
  accepted fromisoformat required e = true ->
  response_of (response_reply create e (world s)).1 = Some response ->
  response <> "" ->
  let c := settled create e (world s) in
  let r := <["response_sent" := PyBool true]>
             (<["success" := PyBool true]>
                (<["classification" := PyStr c]> (initial_result id))) in
  exists l,
    calls l = [EvRequest Classification (classify_request e);
               EvRequest Response (respond_request e c);
               EvDispatch (handler_for c)]
              ++ map EvService (handler_services (handler_for c) e response)
    /\ process_email create fromisoformat e s
       = (Returns r, upd s r (response_reply create e (world s)).2 l).
Proof.
  intros Hsys Hid Hacc Hresp Hne c r. rewrite (run_process_email _ _ _ Hid), run_try.
  destruct (run_try_sent e id response (upd s (initial_result id) (world s) [])
              Hsys Hid Hacc Hresp Hne) as (l & Hl & ->).
  upd_norm. exists ([] ++ l). split; [exact Hl | reflexivity].
Qed.

(** *** The objects are never written *)

Lemma keeps_system_set_result r : keeps system (set_result (W:=W) r).
Proof. by intros s. Qed.

Lemma keeps_system_process_email_try e :
  keeps system (process_email_try create fromisoformat e).
Proof.
  unfold process_email_try.
  repeat first
    [ apply keeps_validate_email_format
    | apply keeps_classify_email
    | apply keeps_generate_response
    | apply keeps_require_response
    | apply keeps_call_handler
    | apply keeps_system_set_result
    | frame_step ].
Qed.

Lemma keeps_system_process_email_except e err :
  keeps (@system W) (process_email_except e err).
Proof.
  unfold process_email_except, create_support_ticket. frame.
Qed.

Lemma keeps_system_process_email e :
  keeps system (process_email create fromisoformat e).
Proof.
  unfold process_email.
  repeat first
    [ apply keeps_system_process_email_try
    | apply keeps_system_process_email_except
    | apply keeps_system_set_result
    | frame_step ].
Qed.

Lemma system_after history s :
  system (after create fromisoformat history s) = system s.
Proof.
  revert s. induction history as [|e history IH]; intros s; simpl; [done|].
  unfold after in *. simpl. rewrite IH. apply keeps_system_process_email.
Qed.

(** *** Projections of a trace see only its calls *)

Lemma requests_of_calls op l : requests_of op (calls l) = requests_of op l.
Proof.
  induction l as [|ev l IH]; [done|]. rewrite calls_cons.
  destruct ev; simpl; rewrite ?IH; try done; by destruct (decide _).
Qed.

Lemma dispatched_calls l : dispatched (calls l) = dispatched l.
Proof.
  induction l as [|ev l IH]; [done|]. rewrite calls_cons.
  destruct ev; simpl; by rewrite ?IH.
Qed.

Lemma service_calls_calls l : service_calls (calls l) = service_calls l.
Proof.
  induction l as [|ev l IH]; [done|]. rewrite calls_cons.
  destruct ev; simpl; by rewrite ?IH.
Qed.

Lemma stages_calls l : stages (calls l) = stages l.
Proof.
  induction l as [|ev l IH]; [done|]. rewrite calls_cons.
  destruct ev as [| |[] ?| |]; simpl; by rewrite ?IH.
Qed.

Lemma requests_of_app op l1 l2 :
  requests_of op (l1 ++ l2) = requests_of op l1 ++ requests_of op l2.
Proof. apply omap_app. Qed.

Lemma dispatched_app l1 l2 : dispatched (l1 ++ l2) = dispatched l1 ++ dispatched l2.
Proof. apply omap_app. Qed.

Lemma service_calls_app l1 l2 :
  service_calls (l1 ++ l2) = service_calls l1 ++ service_calls l2.
Proof. apply omap_app. Qed.

Lemma stages_app l1 l2 : stages (l1 ++ l2) = stages l1 ++ stages l2.
Proof. apply omap_app. Qed.

Lemma stages_services cs : stages (map EvService cs) = [].
Proof. by induction cs. Qed.

Lemma dispatched_services cs : dispatched (map EvService cs) = [].
Proof. by induction cs. Qed.

Lemma requests_of_services op cs : requests_of op (map EvService cs) = [].
Proof. by induction cs. Qed.

Lemma service_calls_services cs : service_calls (map EvService cs) = cs.
Proof. induction cs as [|c cs IH]; [done|]. simpl. by rewrite IH. Qed.

(** *** The shape of the returned dict *)

Lemma elem_of_fixed_categories c : c ∈ fixed_categories <-> c ∈ categories.
Proof.
  rewrite elem_of_categories. unfold fixed_categories.
  rewrite !elem_of_cons, elem_of_nil. tauto.
Qed.

Lemma initial_result_shape id :
  dom (initial_result id) = result_keys
  /\ initial_result id !! "email_id" = Some (of_optional id)
  /\ initial_result id !! "success" = Some (PyBool false)
  /\ initial_result id !! "classification" = Some PyNone
  /\ initial_result id !! "response_sent" = Some (PyBool false).
Proof. repeat split; by vm_compute. Qed.

Lemma failed_result_shape id c :
  dom (failed_result id c) = result_keys
  /\ failed_result id c !! "email_id" = Some (of_optional id)
  /\ failed_result id c !! "success" = Some (PyBool false)
  /\ failed_result id c !! "classification" = Some (PyStr c)
  /\ failed_result id c !! "response_sent" = Some (PyBool false).
Proof. repeat split; by vm_compute. Qed.

Lemma sent_result_shape id c :
  dom (sent_result id c) = result_keys
  /\ sent_result id c !! "email_id" = Some (of_optional id)
  /\ sent_result id c !! "success" = Some (PyBool true)
  /\ sent_result id c !! "classification" = Some (PyStr c)
  /\ sent_result id c !! "response_sent" = Some (PyBool true).
Proof. repeat split; by vm_compute. Qed.

(** The three ways [process_email] ends on an email with an [id]. *)
Lemma process_email_cases e id r w t :
  e !! "id" = Some id ->
  (accepted fromisoformat required e = false
   /\ exists logs, calls logs = []
      /\ process_email create fromisoformat e (ready r w t)
         = (Returns (initial_result id), ready (initial_result id) w (t ++ logs)))
  \/ (accepted fromisoformat required e = true
      /\ default "" (response_of (response_reply create e w).1) = ""
      /\ exists l,
           calls l = [EvRequest Classification (classify_request e);
                      EvRequest Response (respond_request e (settled create e w));
                      EvService (CreateSupportTicket id ("Error: " +:+ no_response id))]
           /\ process_email create fromisoformat e (ready r w t)
              = (Returns (failed_result id (settled create e w)),
                 ready (failed_result id (settled create e w))
                   (response_reply create e w).2 (t ++ l)))
  \/ (accepted fromisoformat required e = true
      /\ exists response l,
           response_of (response_reply create e w).1 = Some response
           /\ response <> ""
           /\ calls l = [EvRequest Classification (classify_request e);
                         EvRequest Response (respond_request e (settled create e w));
                         EvDispatch (handler_for (settled create e w))]
                        ++ map EvService
                             (handler_services (handler_for (settled create e w)) e response)
           /\ process_email create fromisoformat e (ready r w t)
              = (Returns (sent_result id (settled create e w)),
                 ready (sent_result id (settled create e w))
                   (response_reply create e w).2 (t ++ l))).
Proof.
  intros Hid.
  destruct (accepted fromisoformat required e) eqn:Hacc.
  - destruct (response_of (response_reply create e w).1) as [[|ch response]|] eqn:Hresp.
    + right; left. split; [reflexivity|]. split; [reflexivity|].
      destruct (process_email_failed e id (ready r w t) eq_refl Hid Hacc) as (l & Hl & Hrun).
      { cbn [world ready]. by rewrite Hresp. }
      exists l. split; [exact Hl | exact Hrun].
    + right; right. split; [reflexivity|].
      destruct (process_email_sent e id (String ch response) (ready r w t)
                  eq_refl Hid Hacc Hresp) as (l & Hl & Hrun).
      { intros Heq; discriminate Heq. }
      exists (String ch response), l.
      split; [reflexivity|]. split; [intros Heq; discriminate Heq|].
      split; [exact Hl | exact Hrun].
    + right; left. split; [reflexivity|]. split; [reflexivity|].
      destruct (process_email_failed e id (ready r w t) eq_refl Hid Hacc) as (l & Hl & Hrun).
      { cbn [world ready]. by rewrite Hresp. }
      exists l. split; [exact Hl | exact Hrun].
  - left. split; [reflexivity|].
    destruct (process_email_rejected e id (ready r w t) eq_refl Hid Hacc)
      as (logs & Hlogs & Hrun).
    exists logs. split; [exact Hlogs | exact Hrun].
Qed.

(** *** The claims *)

Lemma required_absent e field :
  field ∈ required -> present e field = false ->
  forallb (present e) (elements required) = false.
Proof.
  intros Hin Hp. apply not_true_is_false. intros Hall.
  rewrite (required_present e field Hin Hall) in Hp. discriminate Hp.
Qed.

(** C8. An email dict without the key ['id'] makes [process_email]
    raise [KeyError('id')]: the lookup [email['id']] that builds the
    result dict runs before validation and outside the [try] block, so
    nothing is logged, caught or returned, although
    [validate_email_format] on the same email returns [False]. *)
Theorem process_email_without_id_raises e r w t :
  e !! "id" = None ->
  process_email create fromisoformat e (ready r w t)
  = (Raises (KeyError "id"), ready r w t)
  /\ (validate_email_format fromisoformat e (ready r w t)).1 = Returns false.
Proof.
  intros Hid. split; [by apply process_email_missing|].
  destruct (run_validate_email_format e (ready r w t) eq_refl) as (logs & _ & ->).
  cbn [fst]. unfold accepted.
  rewrite (required_absent e "id"); [reflexivity | by vm_compute |].
  unfold present. by rewrite Hid.
Qed.

(** C9. [process_email] returns a dict unless the email has no ['id']
    (then it raises [KeyError('id')]); a returned dict has exactly the
    keys [email_id], [success], [classification], [response_sent], its
    [success] and [response_sent] are the same boolean, and when
    [success] is [True] its [classification] is one of the five fixed
    categories. *)
Theorem process_email_result_invariant e r w t :
  match (process_email create fromisoformat e (ready r w t)).1 with
  | Returns res =>
      dom res = result_keys
      /\ (exists b, res !! "success" = Some (PyBool b)
                    /\ res !! "response_sent" = Some (PyBool b))
      /\ (res !! "success" = Some (PyBool true) ->
          exists c, res !! "classification" = Some (PyStr c) /\ c ∈ fixed_categories)
  | Raises err => err = KeyError "id" /\ e !! "id" = None
  end.
Proof.
  destruct (e !! "id") as [id|] eqn:Hid.
  2: { by rewrite (process_email_missing _ _ Hid). }
  destruct (process_email_cases e id r w t Hid)
    as [(_ & logs & _ & ->) | [(_ & _ & l & _ & ->) | (_ & response & l & _ & _ & _ & ->)]];
    cbn [fst].
  - destruct (initial_result_shape id) as (Hdom & _ & Hs & _ & Hr).
    split; [exact Hdom|]. split; [by exists false|].
    rewrite Hs. intros Heq; discriminate Heq.
  - destruct (failed_result_shape id (settled create e w)) as (Hdom & _ & Hs & _ & Hr).
    split; [exact Hdom|]. split; [by exists false|].
    rewrite Hs. intros Heq; discriminate Heq.
  - destruct (sent_result_shape id (settled create e w)) as (Hdom & _ & Hs & Hc & Hr).
    split; [exact Hdom|]. split; [by exists true|].
    intros _. exists (settled create e w). split; [exact Hc|].
    apply elem_of_fixed_categories, settled_categories.
Qed.

Lemma in_categories_fixed c :
  in_categories c categories = true ->
  exists x, c = Some x /\ x ∈ fixed_categories.
Proof.
  destruct c as [x|]; simpl; [|intros Heq; discriminate Heq].
  intros Hin. apply bool_decide_eq_true in Hin.
  exists x. split; [reflexivity|]. by apply elem_of_fixed_categories.
Qed.

Lemma classify_email_range e s c s' :
  system s = automation_system ->
  classify_email create e s = (Returns c, s') ->
  c = None \/ exists x, c = Some x /\ x ∈ fixed_categories.
Proof.
  intros Hsys. unfold classify_email.
  rewrite run_bind, run_gets, Hsys.
  change (valid_categories (processor automation_system)) with categories.
  rewrite run_bind.
  destruct (get_email_subject_and_body e s) as [[data|x] s1]; [|intros Heq; discriminate Heq].
  rewrite run_bind.
  destruct (get_classification create _ e _ s1) as [[raw|x] s2];
    [|intros Heq; discriminate Heq].
  destruct (in_categories raw categories) eqn:Hin.
  - rewrite run_ret. intros Heq; injection Heq as <- _.
    right. by apply in_categories_fixed.
  - rewrite run_bind.
    destruct (getitem e "id" s2) as [[id|x] s3]; [|intros Heq; discriminate Heq].
    rewrite run_bind, run_logger, run_ret. intros Heq; injection Heq as <- _.
    by left.
Qed.

Lemma accepted_id e :
  accepted fromisoformat required e = true -> exists id, e !! "id" = Some id.
Proof.
  unfold accepted. rewrite !andb_true_iff. intros [[[Hall _] _] _].
  exists (Some (str_field e "id")). apply present_lookup.
  apply required_present; [by vm_compute | exact Hall].
Qed.

Lemma validate_returns e s :
  system s = automation_system ->
  (validate_email_format fromisoformat e s).1
  = Returns (accepted fromisoformat required e).
Proof.
  intros Hsys. by destruct (run_validate_email_format e s Hsys) as (logs & _ & ->).
Qed.





Lemma or_else_fixed c :
  c = None \/ (exists x, c = Some x /\ x ∈ fixed_categories) ->
  or_else c "other" ∈ fixed_categories.
Proof.
  assert (Hother : "other" ∈ fixed_categories).
  { unfold fixed_categories. rewrite !elem_of_cons. tauto. }
  intros [->|(x & -> & Hx)]; simpl; [exact Hother|].
  destruct (is_empty x); [exact Hother | exact Hx].
Qed.

(** The trace [process_email] adds, read as calls, in each case. *)
Lemma process_email_trace e r w t :
  exists l,
    trace (process_email create fromisoformat e (ready r w t)).2 = t ++ l
    /\ (calls l = []
        \/ (accepted fromisoformat required e = true
            /\ default "" (response_of (response_reply create e w).1) = ""
            /\ exists id,
                 calls l = [EvRequest Classification (classify_request e);
                            EvRequest Response (respond_request e (settled create e w));
                            EvService (CreateSupportTicket id ("Error: " +:+ no_response id))])
        \/ (accepted fromisoformat required e = true
            /\ exists response,
                 response_of (response_reply create e w).1 = Some response
                 /\ response <> ""
                 /\ calls l = [EvRequest Classification (classify_request e);
                               EvRequest Response (respond_request e (settled create e w));
                               EvDispatch (handler_for (settled create e w))]
                              ++ map EvService
                                   (handler_services (handler_for (settled create e w))
                                      e response))).
Proof.
  destruct (e !! "id") as [id|] eqn:Hid.
  2: { rewrite (process_email_missing _ _ Hid). exists []. cbn [snd trace ready].
       split; [by rewrite app_nil_r | by left]. }
  destruct (process_email_cases e id r w t Hid)
    as [(_ & logs & Hlogs & ->)
       | [(Hacc & Hresp & l & Hl & ->) | (Hacc & response & l & Hresp & Hne & Hl & ->)]];
    cbn [snd trace ready].
  - exists logs. split; [reflexivity | left; exact Hlogs].
  - exists l. split; [reflexivity|]. right; left.
    split; [exact Hacc|]. split; [exact Hresp|]. exists id. exact Hl.
  - exists l. split; [reflexivity|]. right; right.
    split; [exact Hacc|]. exists response.
    split; [exact Hresp|]. split; [exact Hne | exact Hl].
Qed.

(** C10. The lookup [response_prompts[classification]] in
    [generate_response] cannot raise [KeyError] in the pipeline: the
    classification [process_email] passes on, [classify_email(email) or
    "other"], is one of the five fixed categories, each of them is a
    key of [response_prompts] and none is ["spam"], and every response
    request [process_email] makes is the one built for such a
    category. *)
Theorem response_prompts_lookup_is_safe e r w t :
  match classify_email create e (ready r w t) with
  | (Returns c, _) => or_else c "other" ∈ fixed_categories
  | (Raises _, _) => True
  end
  /\ (forall c, c ∈ fixed_categories ->
        c <> "spam"
        /\ exists instruction,
             response_prompts !! c = Some instruction
             /\ forall s : state W,
                  getitem response_prompts c s = (Returns instruction, s))
  /\ exists l,
       trace (process_email create fromisoformat e (ready r w t)).2 = t ++ l
       /\ forall req, req ∈ requests_of Response l ->
            exists c, c ∈ fixed_categories /\ req = respond_request e c.
Proof.
  split; [|split].
  - destruct (classify_email create e (ready r w t)) as [[c|x] s'] eqn:Hrun; [|exact I].
    apply or_else_fixed.
    exact (classify_email_range e (ready r w t) c s' eq_refl Hrun).
  - intros c Hc. split.
    + unfold fixed_categories in Hc. rewrite !elem_of_cons, elem_of_nil in Hc.
      intros ->. repeat destruct Hc as [Hc|Hc]; try discriminate Hc. exact Hc.
    + destruct (categories_response_prompts c) as [instruction Hi].
      { by apply elem_of_fixed_categories. }
      exists instruction. split; [exact Hi|].
      intros s. by apply run_getitem.
  - destruct (process_email_trace e r w t) as (l & Htrace & Hcalls).
    exists l. split; [exact Htrace|].
    intros req. rewrite <- requests_of_calls.
    assert (Hcat : settled create e w ∈ fixed_categories)
      by apply elem_of_fixed_categories, settled_categories.
    destruct Hcalls as [-> | [(_ & _ & id & ->) | (_ & response & _ & _ & ->)]].
    + cbn. by intros ?%elem_of_nil.
    + cbn. intros ->%list_elem_of_singleton. by exists (settled create e w).
    + rewrite requests_of_app, requests_of_services.
      cbn. intros ->%list_elem_of_singleton. by exists (settled create e w).
Qed.

(** The projections of the three shapes a run's calls can take. *)
Section Shapes.
Variables (req1 req2 : request) (ticket : service_call) (h : handler)
          (cs : list service_call).

Let failed := [EvRequest Classification req1; EvRequest Response req2; EvService ticket].
Let sent := [EvRequest Classification req1; EvRequest Response req2; EvDispatch h]
            ++ map EvService cs.

Lemma failed_shape :
  requests_of Classification failed = [req1]
  /\ requests_of Response failed = [req2]
  /\ dispatched failed = []
  /\ stages failed = [Classify; Generate]
  /\ service_calls failed = [ticket].
Proof. repeat split; reflexivity. Qed.

Lemma sent_shape :
  requests_of Classification sent = [req1]
  /\ requests_of Response sent = [req2]
  /\ dispatched sent = [h]
  /\ stages sent = [Classify; Generate; Dispatch h]
  /\ service_calls sent = cs.
Proof.
  unfold sent.
  rewrite requests_of_app, requests_of_app, dispatched_app, stages_app, service_calls_app.
  rewrite !requests_of_services, dispatched_services, stages_services,
    service_calls_services.
  repeat split; reflexivity.
Qed.
Lemma handled_shape :
  dispatched (EvDispatch h :: map EvService cs) = [h]
  /\ service_calls (EvDispatch h :: map EvService cs) = cs.
Proof.
  change (EvDispatch h :: map EvService cs) with ([EvDispatch h] ++ map EvService cs).
  rewrite dispatched_app, service_calls_app, dispatched_services, service_calls_services.
  split; reflexivity.
Qed.
End Shapes.

(** C7. In one call of [process_email] the classification request
    and the response request are each made at most once. For an email
    that passes validation each is made exactly once: when the service
    yields no classification the category falls back to ["other"]
    without a second classification request, and when it yields no
    response the email ends with [success] [False] and no handler,
    without a second response request. *)
Theorem language_model_called_at_most_once e r w t :
  exists l,
    trace (process_email create fromisoformat e (ready r w t)).2 = t ++ l
    /\ length (requests_of Classification l) <= 1
    /\ length (requests_of Response l) <= 1
    /\ ((validate_email_format fromisoformat e (ready r w t)).1 = Returns true ->
        requests_of Classification l = [classify_request e]
        /\ requests_of Response l = [respond_request e (settled create e w)]
        /\ (classification_of (create w (classify_request e)).1 = None ->
            settled create e w = "other")
        /\ (default "" (response_of (response_reply create e w).1) = "" ->
            dispatched l = []
            /\ exists res,
                 (process_email create fromisoformat e (ready r w t)).1 = Returns res
                 /\ res !! "success" = Some (PyBool false))).
Proof.
  assert (Hother : classification_of (create w (classify_request e)).1 = None ->
                   settled create e w = "other").
  { intros Hnone. unfold settled, classified. by rewrite Hnone. }
  rewrite (validate_returns e (ready r w t) eq_refl).
  destruct (e !! "id") as [id|] eqn:Hid.
  2: { rewrite (process_email_missing _ _ Hid). exists []. cbn [snd trace ready].
       split; [by rewrite app_nil_r|]. split; [cbn; lia|]. split; [cbn; lia|].
       intros Hacc%Returns_inj. destruct (accepted_id e Hacc) as [id Hid'].
       rewrite Hid in Hid'. discriminate Hid'. }
  destruct (process_email_cases e id r w t Hid)
    as [(Hacc & logs & Hlogs & ->)
       | [(Hacc & Hresp & l & Hl & ->) | (Hacc & response & l & Hresp & Hne & Hl & ->)]];
    cbn [fst snd trace ready].
  - exists logs. split; [reflexivity|].
    rewrite <- (requests_of_calls Classification), <- (requests_of_calls Response), Hlogs.
    split; [cbn; lia|]. split; [cbn; lia|].
    rewrite Hacc. intros Heq%Returns_inj. discriminate Heq.
  - exists l. split; [reflexivity|].
    rewrite <- (requests_of_calls Classification), <- (requests_of_calls Response),
      <- dispatched_calls, Hl.
    destruct (failed_shape (classify_request e) (respond_request e (settled create e w))
                (CreateSupportTicket id ("Error: " +:+ no_response id)))
      as (-> & -> & -> & _).
    split; [cbn; lia|]. split; [cbn; lia|]. intros _.
    split; [reflexivity|]. split; [reflexivity|]. split; [exact Hother|].
    intros _. split; [reflexivity|].
    eexists. split; [reflexivity|].
    by destruct (failed_result_shape id (settled create e w)) as (_ & _ & Hs & _).
  - exists l. split; [reflexivity|].
    rewrite <- (requests_of_calls Classification), <- (requests_of_calls Response),
      <- dispatched_calls, Hl.
    destruct (sent_shape (classify_request e) (respond_request e (settled create e w))
                (handler_for (settled create e w))
                (handler_services (handler_for (settled create e w)) e response))
      as (-> & -> & -> & _).
    split; [cbn; lia|]. split; [cbn; lia|]. intros _.
    split; [reflexivity|]. split; [reflexivity|]. split; [exact Hother|].
    rewrite Hresp. cbn [default]. intros Hempty. destruct (Hne Hempty).
Qed.

(** C1 (amended). On an email that has an ['id'], [process_email]
    returns its result dict after running the stages in the order
    validate, classify, generate response, dispatch. If
    [validate_email_format] returns [False] it returns at once with
    [success] [False], [classification] [None], [response_sent]
    [False], having made no request, dispatched no handler and called
    no service. Otherwise the classification request comes first and
    the response request second; a non-empty response is followed by
    the dispatch of exactly one handler, the one the table gives for
    the category, and an empty or missing response by no dispatch at
    all, with [success] left [False]. *)
Theorem pipeline_runs_stages_in_order e id r w t :
  e !! "id" = Some id ->
  exists res w' l,
    process_email create fromisoformat e (ready r w t)
    = (Returns res, ready res w' (t ++ l))
    /\ (((validate_email_format fromisoformat e (ready r w t)).1 = Returns false
         /\ res !! "success" = Some (PyBool false)
         /\ res !! "classification" = Some PyNone
         /\ res !! "response_sent" = Some (PyBool false)
         /\ calls l = [] /\ w' = w)
        \/ ((validate_email_format fromisoformat e (ready r w t)).1 = Returns true
            /\ ((exists response,
                   response_of (response_reply create e w).1 = Some response
                   /\ response <> ""
                   /\ stages l = [Classify; Generate;
                                  Dispatch (handler_for (settled create e w))]
                   /\ dispatched l = [handler_for (settled create e w)]
                   /\ res !! "success" = Some (PyBool true))
                \/ (default "" (response_of (response_reply create e w).1) = ""
                    /\ stages l = [Classify; Generate]
                    /\ dispatched l = []
                    /\ res !! "success" = Some (PyBool false))))).
Proof.
  intros Hid. rewrite (validate_returns e (ready r w t) eq_refl).
  destruct (process_email_cases e id r w t Hid)
    as [(Hacc & logs & Hlogs & Hrun)
       | [(Hacc & Hresp & l & Hl & Hrun) | (Hacc & response & l & Hresp & Hne & Hl & Hrun)]];
    rewrite Hacc.
  - exists (initial_result id), w, logs. split; [exact Hrun|]. left.
    destruct (initial_result_shape id) as (_ & _ & Hs & Hc & Hr).
    split; [reflexivity|]. split; [exact Hs|]. split; [exact Hc|]. split; [exact Hr|].
    split; [exact Hlogs | reflexivity].
  - eexists _, _, l. split; [exact Hrun|]. right. split; [reflexivity|]. right.
    rewrite <- stages_calls, <- dispatched_calls, Hl.
    destruct (failed_shape (classify_request e) (respond_request e (settled create e w))
                (CreateSupportTicket id ("Error: " +:+ no_response id)))
      as (_ & _ & -> & -> & _).
    destruct (failed_result_shape id (settled create e w)) as (_ & _ & Hs & _).
    split; [exact Hresp|]. split; [reflexivity|]. split; [reflexivity | exact Hs].
  - eexists _, _, l. split; [exact Hrun|]. right. split; [reflexivity|]. left.
    exists response.
    rewrite <- stages_calls, <- dispatched_calls, Hl.
    destruct (sent_shape (classify_request e) (respond_request e (settled create e w))
                (handler_for (settled create e w))
                (handler_services (handler_for (settled create e w)) e response))
      as (_ & _ & -> & -> & _).
    destruct (sent_result_shape id (settled create e w)) as (_ & _ & Hs & _).
    split; [exact Hresp|]. split; [exact Hne|].
    split; [reflexivity|]. split; [reflexivity | exact Hs].
Qed.

Lemma handler_for_cases classification :
  handler_for classification
  = if decide (classification = "complaint") then _handle_complaint
    else if decide (classification = "inquiry") then _handle_inquiry
    else if decide (classification = "feedback") then _handle_feedback
    else if decide (classification = "support_request") then _handle_support_request
    else _handle_other.
Proof.
  unfold handler_for, automation_system, EmailAutomationSystem__init__.
  cbn [response_handlers].
  repeat (destruct (decide (classification = _)) as [->|?];
          [ reflexivity | rewrite lookup_insert_ne by congruence ]).
  destruct (decide (classification = "other")) as [->|?]; [reflexivity|].
  by rewrite lookup_singleton_ne by congruence.
Qed.

(** C3. The handler the dispatch table gives for a classification
    (with [_handle_other] for a classification that is not a key)
    makes exactly these service calls, in this order: ["complaint"]
    an urgent ticket then a complaint response; ["inquiry"] a standard
    response; ["feedback"] a feedback log then a standard response;
    ["support_request"], ["other"] and any other classification a
    support ticket then a standard response. The table has the five
    categories as its keys. *)
Theorem dispatch_table_routes classification e id response r (w : W) t :
  e !! "id" = Some id -> present e "subject" = true -> present e "body" = true ->
  dom (response_handlers automation_system) = list_to_set fixed_categories
  /\ exists l,
       call_handler
         (default _handle_other (response_handlers automation_system !! classification))
         e response (ready r w t)
       = (Returns tt, ready r w (t ++ l))
       /\ length (dispatched l) = 1
       /\ service_calls l = routed classification id (email_data e) response.
Proof.
  intros Hid Hsubject Hbody.
  split; [apply (bool_decide_unpack _); vm_compute; exact I|].
  fold (handler_for classification).
  destruct (run_call_handler (handler_for classification) e id response (ready r w t)
              Hid Hsubject Hbody) as (l & Hl & Hrun).
  exists l. split; [exact Hrun|].
  rewrite <- dispatched_calls, <- service_calls_calls, Hl.
  destruct (handled_shape (handler_for classification)
              (handler_services (handler_for classification) e response)) as [-> ->].
  split; [reflexivity|]. unfold handler_services, routed.
  rewrite Hid, handler_for_cases. cbn [default].
  repeat (destruct (decide (classification = _)); [reflexivity|]).
  reflexivity.
Qed.

(** *** The error path *)

(** What a computation that keeps [result] leaves in it, whatever the
    outcome. *)
Lemma kept_result {A} (m : M W A) s o s' :
  keeps (@result W) m -> m s = (o, s') -> result s' = result s.
Proof. intros Hk Hrun. specialize (Hk s). by rewrite Hrun in Hk. Qed.

(** When the [try] block raises, [result] is as it was at its start,
    but for the classification it may already hold. *)
Lemma try_block_raises_result e s err s2 :
  process_email_try create fromisoformat e s = (Raises err, s2) ->
  result s2 = result s
  \/ exists c, result s2 = <["classification" := PyStr c]> (result s).
Proof.
  unfold process_email_try. rewrite run_bind.
  destruct (validate_email_format fromisoformat e s) as [[valid|x] sa] eqn:Hvalidate.
  2: { intros Heq. injection Heq as _ <-. left.
       exact (kept_result _ _ _ _
                (keeps_validate_email_format _ off_trace_result e) Hvalidate). }
  pose proof (kept_result _ _ _ _
                (keeps_validate_email_format _ off_trace_result e) Hvalidate) as Ka.
  clear Hvalidate. destruct valid; cbn [negb].
  2: { rewrite run_bind. unfold getitem at 1.
       destruct (e !! "id") as [id|].
       - rewrite run_ret, run_bind, run_logger, run_gets.
         intros Heq; discriminate Heq.
       - unfold raise. intros Heq. injection Heq as _ <-. left. exact Ka. }
  rewrite run_bind.
  destruct (classify_email create e sa) as [[c|x] sb] eqn:Hclassify.
  2: { intros Heq. injection Heq as _ <-. left.
       rewrite (kept_result _ _ _ _
                  (keeps_classify_email _ off_trace_result e) Hclassify).
       exact Ka. }
  pose proof (kept_result _ _ _ _
                (keeps_classify_email _ off_trace_result e) Hclassify) as Kb.
  clear Hclassify.
  rewrite run_bind, run_gets, run_bind, run_set_result, run_bind.
  rewrite Kb, Ka.
  match goal with |- context [generate_response create e ?cls ?sc] =>
    destruct (generate_response create e cls sc) as [[response|x] sd] eqn:Hgenerate;
    pose proof (kept_result _ _ _ _
                  (keeps_generate_response _ off_trace_result e cls) Hgenerate) as Kd;
    rewrite result_upd in Kd; clear Hgenerate
  end.
  2: { intros Heq. injection Heq as _ <-. right. eexists. exact Kd. }
  rewrite run_bind.
  destruct (require_response e response sd) as [[text|x] se] eqn:Hrequire;
    pose proof (kept_result _ _ _ _
                  (keeps_require_response _ e response) Hrequire) as Ke;
    clear Hrequire.
  2: { intros Heq. injection Heq as _ <-. right. eexists. rewrite Ke. exact Kd. }
  rewrite run_bind, run_gets, run_bind.
  match goal with |- context [call_handler ?h e text se] =>
    destruct (call_handler h e text se) as [[u|x] sf] eqn:Hhandle;
    pose proof (kept_result _ _ _ _
                  (keeps_call_handler _ off_trace_result h e text) Hhandle) as Kf;
    clear Hhandle
  end.
  2: { intros Heq. injection Heq as _ <-. right. eexists. rewrite Kf, Ke. exact Kd. }
  rewrite run_bind, run_gets, run_bind, run_set_result, run_gets.
  intros Heq; discriminate Heq.
Qed.

(** C5 (amended). When the [try] block of [process_email] raises an
    exception, that is, once [email['id']] has been read, the
    exception is caught, an error line is logged,
    [create_support_ticket(email['id'], f'Error: {e}')] is called (the
    mock logs one line), and [process_email] returns the result dict,
    in which [success] and [response_sent] are [False]. Nothing else
    is done on this path. *)
Theorem exception_is_caught_logged_and_ticketed e id s err s2 :
  e !! "id" = Some id ->
  process_email_try create fromisoformat e (upd s (initial_result id) (world s) [])
  = (Raises err, s2) ->
  process_email create fromisoformat e s
  = (Returns (result s2),
     upd s2 (result s2) (world s2)
       [EvLog ERROR ("Error while processing email with ID: " +:+ fmt id);
        EvService (CreateSupportTicket id ("Error: " +:+ exn_str err));
        EvLog INFO ("Creating support ticket for email " +:+ fmt id)])
  /\ result s2 !! "success" = Some (PyBool false)
  /\ result s2 !! "response_sent" = Some (PyBool false).
Proof.
  intros Hid Hraise. split.
  - rewrite (run_process_email _ _ _ Hid), run_try, Hraise.
    apply (run_process_email_except _ _ _ _ Hid).
  - apply try_block_raises_result in Hraise. rewrite result_upd in Hraise.
    destruct (initial_result_shape id) as (_ & _ & Hs & _ & Hr).
    destruct Hraise as [-> | [c ->]]; [split; [exact Hs | exact Hr]|].
    destruct (failed_result_shape id c) as (_ & _ & Hsc & _ & Hrc).
    split; [exact Hsc | exact Hrc].
Qed.

(** *** Independence of earlier emails *)

Lemma settled_stateless e w w' :
  stateless_replies create -> settled create e w = settled create e w'.
Proof. intros Hs. unfold settled, classified. by rewrite (Hs w w'). Qed.

Lemma response_stateless e w w' :
  stateless_replies create ->
  response_of (response_reply create e w).1 = response_of (response_reply create e w').1.
Proof.
  intros Hs. unfold response_reply.
  rewrite (settled_stateless e w w' Hs).
  by rewrite (Hs (world_classified create e w) (world_classified create e w')).
Qed.

Lemma process_email_outcome_stateless e r w t r' w' t' :
  stateless_replies create ->
  (process_email create fromisoformat e (ready r w t)).1
  = (process_email create fromisoformat e (ready r' w' t')).1.
Proof.
  intros Hs.
  destruct (e !! "id") as [id|] eqn:Hid.
  2: { by rewrite !(process_email_missing _ _ Hid). }
  pose proof (settled_stateless e w w' Hs) as Hsettled.
  pose proof (response_stateless e w w' Hs) as Hresponse.
  destruct (process_email_cases e id r w t Hid)
    as [(Hacc & logs & _ & ->)
       | [(Hacc & Hresp & l & _ & ->) | (Hacc & response & l & Hresp & Hne & _ & ->)]];
    destruct (process_email_cases e id r' w' t' Hid)
      as [(Hacc' & logs' & _ & ->)
         | [(Hacc' & Hresp' & l' & _ & ->)
           | (Hacc' & response' & l' & Hresp' & Hne' & _ & ->)]];
    cbn [fst];
    try (rewrite Hacc in Hacc'; discriminate Hacc');
    try reflexivity;
    try (rewrite Hsettled; reflexivity).
  - rewrite Hresponse, Hresp' in Hresp. cbn [default] in Hresp. destruct (Hne' Hresp).
  - rewrite <- Hresponse, Hresp in Hresp'. cbn [default] in Hresp'. destruct (Hne Hresp').
Qed.

Lemma after_ready history r w t :
  exists r' w' t', after create fromisoformat history (ready r w t) = ready r' w' t'.
Proof.
  pose proof (system_after history (ready r w t)) as Hsys.
  destruct (after create fromisoformat history (ready r w t)) as [sys r' w' t'].
  cbn [system ready] in Hsys. subst sys. by exists r', w', t'.
Qed.

(** C6 (amended). No call of [process_email], and so no sequence of
    calls, changes a field of the objects ([processor],
    [response_handlers], [client], [valid_categories],
    [required_fields]). Hence, when the replies of the service depend
    only on the request, [process_email] gives the same outcome for an
    email whatever emails were processed before it. *)
Theorem processing_is_independent_of_history history e r w t :
  (forall s, system (process_email create fromisoformat e s).2 = system s)
  /\ (forall s, system (after create fromisoformat history s) = system s)
  /\ (stateless_replies create ->
      (process_email create fromisoformat e
         (after create fromisoformat history (ready r w t))).1
      = (process_email create fromisoformat e (ready r w t)).1).
Proof.
  split; [apply keeps_system_process_email|].
  split; [apply system_after|].
  intros Hs. destruct (after_ready history r w t) as (r' & w' & t' & ->).
  by apply process_email_outcome_stateless.
Qed.

(** *** Validation *)

(** What the three tests of [validate_email_format] come to. *)

Lemma re_match_3_digits_iff (txt : string) :
  re_match_3_digits txt = true
  <-> three_decimal_digits txt
      \/ exists d, three_decimal_digits d /\ txt = d +:+ nl.
Proof.
  unfold three_decimal_digits. split.
  - destruct txt as [|a [|b [|c rest]]]; simpl; try (intros Heq; discriminate Heq).
    rewrite !andb_true_iff, orb_true_iff. intros [[[Ha Hb] Hc] [Hrest|Hrest]].
    + destruct rest; [|discriminate Hrest]. left. by exists a, b, c.
    + destruct (decide (rest = nl)) as [->|]; [|discriminate Hrest].
      right. exists (String a (String b (String c EmptyString))).
      split; [by exists a, b, c | reflexivity].
  - intros [(a & b & c & -> & Ha & Hb & Hc) | (d & (a & b & c & -> & Ha & Hb & Hc) & ->)];
      simpl; rewrite Ha, Hb, Hc; [reflexivity|].
    simpl. by destruct (decide (nl = nl)).
Qed.

Lemma split_from_nil cur (txt : string) :
  split_from cur txt = []
  <-> cur = EmptyString /\ forall c, c ∈ list_ascii_of_string txt -> isspace c = true.
Proof.
  revert cur. induction txt as [|ch txt IH]; intros cur; simpl.
  - destruct cur; simpl; split.
    + intros _. split; [reflexivity|]. by intros c ?%elem_of_nil.
    + reflexivity.
    + intros Heq; discriminate Heq.
    + intros [Heq _]; discriminate Heq.
  - destruct (isspace ch) eqn:Hch.
    + destruct cur; simpl.
      * rewrite IH. split.
        -- intros [_ Hall]. split; [reflexivity|].
           intros c [->|Hin]%elem_of_cons; [exact Hch | by apply Hall].
        -- intros [_ Hall]. split; [reflexivity|].
           intros c Hin. apply Hall. by apply elem_of_cons; right.
      * split; [intros Heq; discriminate Heq | intros [Heq _]; discriminate Heq].
    + rewrite IH. split.
      * intros [Heq _]. by destruct cur.
      * intros [_ Hall]. specialize (Hall ch (list_elem_of_here _ _)).
        rewrite Hch in Hall. discriminate Hall.
Qed.

Lemma split_not_nil (txt : string) : split txt <> [] <-> has_non_whitespace txt.
Proof.
  unfold split, has_non_whitespace. rewrite split_from_nil. split.
  - intros Hnot.
    induction (list_ascii_of_string txt) as [|c l IH].
    + destruct Hnot. split; [reflexivity|]. by intros c ?%elem_of_nil.
    + destruct (isspace c) eqn:Hc.
      * destruct IH as (c' & Hin & Hc').
        { intros [_ Hall]. apply Hnot. split; [reflexivity|].
          intros c' [->|Hin]%elem_of_cons; [exact Hc | by apply Hall]. }
        exists c'. split; [by apply elem_of_cons; right | exact Hc'].
      * exists c. split; [apply list_elem_of_here | exact Hc].
  - intros (c & Hin & Hc) [_ Hall]. rewrite (Hall c Hin) in Hc. discriminate Hc.
Qed.

Lemma all_present_iff e :
  forallb (present e) (elements required) = true
  <-> exists id from subject body timestamp,
        e !! "id" = Some (Some id) /\ e !! "from" = Some (Some from)
        /\ e !! "subject" = Some (Some subject) /\ e !! "body" = Some (Some body)
        /\ e !! "timestamp" = Some (Some timestamp).
Proof.
  split.
  - intros Hall.
    exists (str_field e "id"), (str_field e "from"), (str_field e "subject"),
      (str_field e "body"), (str_field e "timestamp").
    repeat split; apply present_lookup;
      (apply required_present; [by vm_compute | exact Hall]).
  - intros (id & from & subject & body & timestamp & Hi & Hf & Hs & Hb & Ht).
    apply forallb_forall. intros field Hin.
    apply (proj2 (list_elem_of_In _ _)), elem_of_elements, elem_of_required in Hin.
    unfold present.
    destruct Hin as [->|[->|[->|[->| ->]]]];
      [by rewrite Hi | by rewrite Hf | by rewrite Hs | by rewrite Hb | by rewrite Ht].
Qed.

(** When [validate_email_format] returns [True]: the conditions of
    the specification, with the [id] test as the pattern has it. *)
Lemma validate_email_format_iff e r (w : W) t :
  (validate_email_format fromisoformat e (ready r w t)).1 = Returns true
  <-> exists id from subject body timestamp,
        e !! "id" = Some (Some id) /\ e !! "from" = Some (Some from)
        /\ e !! "subject" = Some (Some subject) /\ e !! "body" = Some (Some body)
        /\ e !! "timestamp" = Some (Some timestamp)
        /\ (three_decimal_digits id
            \/ exists d, three_decimal_digits d /\ id = d +:+ nl)
        /\ has_non_whitespace body
        /\ is_Some (fromisoformat (replace_char "Z" "+00:00" timestamp)).
Proof.
  rewrite (validate_returns e (ready r w t) eq_refl).
  split.
  - intros Hacc%Returns_inj. unfold accepted in Hacc.
    rewrite !andb_true_iff, negb_true_iff, bool_decide_eq_false,
      bool_decide_eq_true in Hacc.
    destruct Hacc as [[[Hall Hre] Hbody] Hts].
    destruct (proj1 (all_present_iff e) Hall)
      as (id & from & subject & body & timestamp & Hi & Hf & Hs & Hb & Ht).
    unfold str_field in Hre, Hbody, Hts. rewrite Hi in Hre. rewrite Hb in Hbody.
    rewrite Ht in Hts.
    exists id, from, subject, body, timestamp.
    repeat (split; [assumption|]).
    split; [by apply re_match_3_digits_iff|].
    split; [by apply split_not_nil | exact Hts].
  - intros (id & from & subject & body & timestamp
            & Hi & Hf & Hs & Hb & Ht & Hre & Hbody & Hts).
    f_equal. unfold accepted.
    rewrite !andb_true_iff, negb_true_iff, bool_decide_eq_false, bool_decide_eq_true.
    unfold str_field. rewrite Hi, Hb, Ht.
    split; [split; [split|]|].
    + apply all_present_iff. by exists id, from, subject, body, timestamp.
    + by apply re_match_3_digits_iff.
    + by apply split_not_nil.
    + exact Hts.
Qed.

(** Every email the specification calls valid is accepted. *)
Lemma spec_valid_accepted e r (w : W) t :
  spec_valid fromisoformat e ->
  (validate_email_format fromisoformat e (ready r w t)).1 = Returns true.
Proof.
  intros (id & from & subject & body & timestamp
          & Hi & Hf & Hs & Hb & Ht & Hid & Hbody & Hts).
  apply validate_email_format_iff.
  exists id, from, subject, body, timestamp.
  repeat (split; [assumption|]).
  split; [by left|]. split; assumption.
Qed.

(** C4 (the failing input). An email whose [id] is three digits
    followed by a newline passes [validate_email_format], as the [$]
    of the pattern matches before a final newline; such an [id] is not
    three decimal digits, so the email does not meet the conditions of
    the specification. *)
Theorem validate_accepts_id_with_final_newline r (w : W) t :
  is_Some (fromisoformat "2024-03-15T10:30:00+00:00") ->
  (validate_email_format fromisoformat email_with_newline_id (ready r w t)).1
  = Returns true
  /\ ~ three_decimal_digits ("123" +:+ nl)
  /\ ~ spec_valid fromisoformat email_with_newline_id.
Proof.
  intros Hparse.
  assert (Hnot : ~ three_decimal_digits ("123" +:+ nl)).
  { intros (a & b & c & Heq & _). vm_compute in Heq. discriminate Heq. }
  split; [|split; [exact Hnot|]].
  - rewrite (validate_returns _ (ready r w t) eq_refl). f_equal.
    unfold accepted. rewrite !andb_true_iff.
    split; [split; [split|]|]; [by vm_compute ..|].
    apply bool_decide_eq_true_2.
    replace (replace_char _ _ _) with "2024-03-15T10:30:00+00:00"; [exact Hparse|].
    vm_compute. reflexivity.
  - intros (id & from & subject & body & timestamp & Hi & _ & _ & _ & _ & Hid & _).
    unfold email_with_newline_id in Hi. rewrite lookup_insert_eq in Hi.
    apply Some_inj, Some_inj in Hi. subst id. exact (Hnot Hid).
Qed.

(** *** Validation: one warning for each rejection *)

Lemma run_check_required_fields_logs fields e s :
  exists logs,
    check_required_fields fields e s
    = (Returns (forallb (present e) fields), upd s (result s) (world s) logs)
    /\ (forallb (present e) fields = true -> logs = [])
    /\ (forallb (present e) fields = false ->
        exists field, field ∈ fields /\ present e field = false
                      /\ logs = [EvLog WARNING ("Required field missing: " +:+ field)]).
Proof.
  induction fields as [|field rest IH]; simpl.
  - exists []. rewrite upd_id. split; [reflexivity|]. split; [reflexivity|].
    intros Heq; discriminate Heq.
  - destruct (present e field) eqn:Hp; simpl.
    + unfold present in Hp.
      destruct (e !! field) as [[v|]|]; [|discriminate Hp ..].
      destruct IH as (logs & Hrun & Hyes & Hno). exists logs.
      split; [exact Hrun|]. split; [exact Hyes|].
      intros Hall. destruct (Hno Hall) as (f & Hin & Hpf & Hlogs).
      exists f. split; [by apply elem_of_cons; right|]. split; [exact Hpf | exact Hlogs].
    + exists [EvLog WARNING ("Required field missing: " +:+ field)].
      split.
      { unfold present in Hp.
        destruct (e !! field) as [[v|]|]; [discriminate Hp | ..];
          by rewrite run_bind, run_logger. }
      split; [intros Heq; discriminate Heq|]. intros _. exists field.
      split; [apply list_elem_of_here|]. split; [exact Hp | reflexivity].
Qed.

(** [validate_email_format] with the line it logs. *)
Lemma run_validate_email_format_logs e s :
  system s = automation_system ->
  exists logs,
    validate_email_format fromisoformat e s
    = (Returns (accepted fromisoformat required e), upd s (result s) (world s) logs)
    /\ ((forallb (present e) (elements required) = false
         /\ exists field, field ∈ required /\ present e field = false
              /\ logs = [EvLog WARNING ("Required field missing: " +:+ field)])
        \/ (forallb (present e) (elements required) = true
            /\ logs =
               if negb (re_match_3_digits (str_field e "id")) then
                 [EvLog WARNING ("Invalid ID format " +:+ str_field e "id"
                                 +:+ " - 3 digits required")]
               else if bool_decide (split (str_field e "body") = []) then
                 [EvLog WARNING ("Body must not be empty " +:+ str_field e "id")]
               else
                 match fromisoformat (replace_char "Z" "+00:00" (str_field e "timestamp")) with
                 | Some _ => []
                 | None =>
                     [EvLog WARNING ("Invalid timestamp format "
                                     +:+ str_field e "timestamp")]
                 end)).
Proof.
  intros Hsys. unfold validate_email_format, accepted.
  rewrite run_bind. unfold gets at 1. rewrite Hsys.
  change (required_fields (processor automation_system)) with required.
  rewrite run_bind.
  destruct (run_check_required_fields_logs (elements required) e s)
    as (logs & -> & Hyes & Hno).
  pose proof (required_present e "id" ltac:(by vm_compute)) as Hid.
  pose proof (required_present e "body" ltac:(by vm_compute)) as Hbody.
  pose proof (required_present e "timestamp" ltac:(by vm_compute)) as Hts.
  destruct (forallb (present e) (elements required)); simpl.
  2: { exists logs. split; [reflexivity|]. left. split; [reflexivity|].
       destruct (Hno eq_refl) as (field & Hin & Hp & Hlogs).
       exists field. split; [by apply elem_of_elements|]. split; [exact Hp | exact Hlogs]. }
  rewrite (Hyes eq_refl). clear Hyes Hno. rewrite upd_id.
  specialize (Hid eq_refl). specialize (Hbody eq_refl). specialize (Hts eq_refl).
  apply present_lookup in Hid, Hbody, Hts.
  rewrite run_bind, (run_getitem _ _ _ _ Hid). rewrite run_bind. simpl.
  destruct (re_match_3_digits (str_field e "id")); simpl.
  2: { eexists. split; [|right; split; reflexivity].
       by rewrite run_bind, run_logger. }
  rewrite run_bind, (run_getitem _ _ _ _ Hbody). rewrite run_bind. simpl.
  destruct (bool_decide (split (str_field e "body") = [])); simpl.
  { eexists. split; [|right; split; reflexivity].
    rewrite run_bind, (run_getitem _ _ _ _ Hid).
    by rewrite run_bind, run_logger. }
  rewrite run_try, run_bind, (run_getitem _ _ _ _ Hts). rewrite run_bind. simpl.
  destruct (fromisoformat _) as [d|]; simpl.
  { exists []. split; [by rewrite upd_id | right; split; reflexivity]. }
  eexists. split; [|right; split; reflexivity].
  rewrite run_bind, (run_getitem _ _ _ _ Hts).
  by rewrite run_bind, run_logger.
Qed.

(** X1. [validate_email_format] returns a boolean for every email and
    never raises. When it returns [True] it has logged nothing; when it
    returns [False] it has logged exactly one warning, which names the
    first test that failed: a required field that is missing or [None],
    else the [id] that does not match the pattern, else the empty body,
    else the timestamp that does not parse. It makes no request, calls
    no service and changes nothing else. *)
Theorem validation_rejects_with_one_warning e r (w : W) t :
  exists b logs,
    validate_email_format fromisoformat e (ready r w t)
    = (Returns b, ready r w (t ++ logs))
    /\ ((b = true /\ logs = [])
        \/ (b = false
            /\ exists msg,
                 logs = [EvLog WARNING msg]
                 /\ ((exists field,
                        field ∈ required /\ present e field = false
                        /\ msg = "Required field missing: " +:+ field)
                     \/ ((forall field, field ∈ required -> present e field = true)
                         /\ ((re_match_3_digits (str_field e "id") = false
                              /\ msg = "Invalid ID format " +:+ str_field e "id"
                                       +:+ " - 3 digits required")
                             \/ (re_match_3_digits (str_field e "id") = true
                                 /\ split (str_field e "body") = []
                                 /\ msg = "Body must not be empty " +:+ str_field e "id")
                             \/ (re_match_3_digits (str_field e "id") = true
                                 /\ split (str_field e "body") <> []
                                 /\ fromisoformat
                                      (replace_char "Z" "+00:00" (str_field e "timestamp"))
                                    = None
                                 /\ msg = "Invalid timestamp format "
                                          +:+ str_field e "timestamp")))))).
Proof.
  destruct (run_validate_email_format_logs e (ready r w t) eq_refl)
    as (logs & Hrun & Hlogs).
  exists (accepted fromisoformat required e), logs.
  split; [exact Hrun|]. clear Hrun.
  unfold accepted.
  destruct Hlogs as [(Hall & field & Hin & Hp & ->) | (Hall & Hlogs)].
  - right. rewrite Hall. clear Hall. split; [reflexivity|].
    eexists. split; [reflexivity|]. left. exists field.
    split; [exact Hin|]. split; [exact Hp | reflexivity].
  - assert (Hpresent : forall field, field ∈ required -> present e field = true).
    { intros field Hin. exact (required_present e field Hin Hall). }
    rewrite Hall. clear Hall. cbn [andb]. revert Hlogs.
    destruct (re_match_3_digits (str_field e "id")); cbn [negb andb].
    2: { intros ->. right. split; [reflexivity|]. eexists. split; [reflexivity|].
         right. split; [exact Hpresent|]. left. split; reflexivity. }
    destruct (bool_decide (split (str_field e "body") = [])) eqn:Hbody; cbn [negb andb].
    { intros ->. right. split; [reflexivity|]. eexists. split; [reflexivity|].
      right. split; [exact Hpresent|]. right; left.
      apply bool_decide_eq_true in Hbody.
      split; [reflexivity|]. split; [exact Hbody | reflexivity]. }
    apply bool_decide_eq_false in Hbody.
    destruct (fromisoformat _) as [d|] eqn:Hparse.
    + intros ->. left. split; [|reflexivity].
      apply bool_decide_eq_true_2. exists d. reflexivity.
    + intros ->. right. split.
      { apply bool_decide_eq_false_2. intros [d Hd]. discriminate Hd. }
      eexists. split; [reflexivity|].
      right. split; [exact Hpresent|]. right; right.
      split; [reflexivity|]. split; [exact Hbody|]. split; reflexivity.
Qed.

(** *** The client methods *)

(** X2. [get_classification] and [get_response] make exactly one
    request and swallow its failure: when the service raises, returns
    no choice or, for a classification, a choice without content, the
    method logs one warning and returns [None]. The one exception that
    leaves them is the [KeyError] of their own [except] block, which
    reads [email['id']] for the warning: it is raised when the request
    fails and the email has no ['id']. A response is returned as the
    service gives it, a classification in lower case, stripped of
    surrounding whitespace and then of final periods. *)
Theorem client_failures_are_swallowed c e prompt temperature s :
  let failed (what : string) (s1 : state W) : outcome (option string) * state W :=
    match e !! "id" with
    | Some id =>
        (Returns None, upd s1 (result s1) (world s1) [EvLog WARNING (what +:+ fmt id)])
    | None => (Raises (KeyError "id"), s1)
    end in
  let requested (op : llm_op) (req : request) : state W :=
    upd s (result s) (create (world s) req).2 [EvRequest op req] in
  let req := {| req_model := model c; req_temperature := 0;
                req_messages := messages prompt |} in
  let req' := {| req_model := model c; req_temperature := temperature;
                 req_messages := messages prompt |} in
  get_classification create c e prompt s
  = match (create (world s) req).1 with
    | APICompletions (Some classification :: _) =>
        (Returns (Some (rstrip_char "." (strip (lower classification)))),
         requested Classification req)
    | _ => failed "Error while classifying ID: " (requested Classification req)
    end
  /\ get_response create c e prompt temperature s
     = match (create (world s) req').1 with
       | APICompletions (response :: _) => (Returns response, requested Response req')
       | _ => failed "Error while generating response ID: " (requested Response req')
       end.
Proof.
  intros failed requested req req'. subst failed requested. cbv beta.
  split.
  - unfold get_classification. rewrite run_try, run_bind, run_create. fold req.
    destruct (create (world s) req) as [[x|[|[cl|] rest]] w']; simpl;
      try reflexivity;
      rewrite run_bind; unfold getitem;
      (destruct (e !! "id") as [id|]; [|reflexivity]);
      rewrite run_ret, run_bind, run_logger, run_ret; reflexivity.
  - unfold get_response. rewrite run_try, run_bind, run_create. fold req'.
    destruct (create (world s) req') as [[x|[|cl rest]] w']; simpl;
      try reflexivity;
      rewrite run_bind; unfold getitem;
      (destruct (e !! "id") as [id|]; [|reflexivity]);
      rewrite run_ret, run_bind, run_logger, run_ret; reflexivity.
Qed.

(** *** What the normalisation of a classification achieves *)

Lemma all_of_app p (a b : string) :
  all_of p (a +:+ b) = all_of p a && all_of p b.
Proof. induction a as [|ch a IH]; simpl; [done|]. by rewrite IH, andb_assoc. Qed.

Lemma all_of_impl (p q : ascii -> bool) (txt : string) :
  (forall ch, p ch = true -> q ch = true) -> all_of p txt = true -> all_of q txt = true.
Proof.
  intros Hpq. induction txt as [|ch txt IH]; simpl; [done|].
  rewrite !andb_true_iff. intros [Hch Htxt]. split; [by apply Hpq | by apply IH].
Qed.

Lemma lower_app (a b : string) : lower (a +:+ b) = lower a +:+ lower b.
Proof. induction a as [|ch a IH]; simpl; [done|]. by rewrite IH. Qed.

Lemma lower_char_space ch : isspace ch = true -> lower_char ch = ch.
Proof.
  destruct ch as [[] [] [] [] [] [] [] []]; vm_compute;
    first [reflexivity | intros Heq; discriminate Heq].
Qed.

Lemma lower_blank (txt : string) : all_of isspace txt = true -> lower txt = txt.
Proof.
  induction txt as [|ch txt IH]; simpl; [done|].
  rewrite andb_true_iff. intros [Hch Htxt]. by rewrite lower_char_space, IH.
Qed.

Lemma lower_periods n : lower (periods n) = periods n.
Proof. induction n as [|n IH]; simpl; [done|]. by rewrite IH. Qed.

Lemma lstrip_by_app_all p (a b : string) :
  all_of p a = true -> lstrip_by p (a +:+ b) = lstrip_by p b.
Proof.
  induction a as [|ch a IH]; simpl; [done|].
  rewrite andb_true_iff. intros [-> Ha]. by apply IH.
Qed.

Lemma rstrip_by_all p (txt : string) : all_of p txt = true -> rstrip_by p txt = "".
Proof.
  induction txt as [|ch txt IH]; simpl; [done|].
  rewrite andb_true_iff. intros [-> Htxt]. by rewrite IH.
Qed.

Lemma rstrip_by_app_all p (a b : string) :
  all_of p b = true -> rstrip_by p (a +:+ b) = rstrip_by p a.
Proof.
  intros Hb. induction a as [|ch a IH]; simpl; [by apply rstrip_by_all|].
  by rewrite IH.
Qed.

Lemma rstrip_by_none p (txt : string) :
  all_of (fun ch => negb (p ch)) txt = true -> rstrip_by p txt = txt.
Proof.
  induction txt as [|ch txt IH]; simpl; [done|].
  rewrite andb_true_iff, negb_true_iff. intros [-> Htxt].
  by rewrite IH, andb_false_r.
Qed.

(** What does not end in a character to strip stays as it is. *)
Lemma rstrip_by_app_kept p (a b : string) :
  rstrip_by p b <> "" -> rstrip_by p (a +:+ b) = a +:+ rstrip_by p b.
Proof.
  intros Hb. induction a as [|ch a IH]; simpl; [done|].
  rewrite IH. destruct (rstrip_by p b); [by destruct Hb|].
  by destruct a.
Qed.

Lemma all_of_periods p n : p "."%char = true -> all_of p (periods n) = true.
Proof. intros Hp. induction n as [|n IH]; simpl; [done|]. by rewrite Hp, IH. Qed.

Lemma app_assoc_string (a b c : string) : (a +:+ b) +:+ c = a +:+ (b +:+ c).
Proof.
  induction a as [|ch a IH]; [reflexivity|].
  change (String ch ((a +:+ b) +:+ c) = String ch (a +:+ b +:+ c)). by rewrite IH.
Qed.

(** A category name in any letter case, with whitespace around it and
    periods after it, is normalised to the category. *)
Lemma normalise_decorated c (x pre post : string) n :
  c ∈ fixed_categories -> lower x = c ->
  all_of isspace pre = true -> all_of isspace post = true ->
  rstrip_char "." (strip (lower (pre +:+ x +:+ periods n +:+ post))) = c.
Proof.
  intros Hc Hx Hpre Hpost.
  rewrite !lower_app, Hx, (lower_blank pre Hpre), (lower_blank post Hpost), lower_periods.
  unfold strip. rewrite (lstrip_by_app_all _ _ _ Hpre).
  assert (Hhead : lstrip_by isspace (c +:+ periods n +:+ post) = c +:+ periods n +:+ post).
  { unfold fixed_categories in Hc. rewrite !elem_of_cons, elem_of_nil in Hc.
    destruct Hc as [->|[->|[->|[->|[->|[]]]]]]; reflexivity. }
  rewrite Hhead. rewrite <- app_assoc_string.
  rewrite (rstrip_by_app_all _ _ _ Hpost).
  assert (Hnone : all_of (fun ch => negb (isspace ch)) c = true
                  /\ rstrip_char "." c = c).
  { unfold fixed_categories in Hc. rewrite !elem_of_cons, elem_of_nil in Hc.
    destruct Hc as [->|[->|[->|[->|[->|[]]]]]]; split; reflexivity. }
  destruct Hnone as [Hnone Hdot].
  rewrite rstrip_by_none.
  2: { rewrite all_of_app, Hnone. by apply all_of_periods. }
  unfold rstrip_char in *. rewrite rstrip_by_app_all; [exact Hdot|].
  by apply all_of_periods.
Qed.

(** X3. A reply of the service that names one of the five categories
    in any letter case, with any whitespace before and after and any
    number of periods after the name, makes [classify_email] return
    that category. *)
Theorem decorated_category_is_recognised e id c (x pre post : string) n rest r (w : W) t :
  e !! "id" = Some id -> present e "subject" = true -> present e "body" = true ->
  c ∈ fixed_categories -> lower x = c ->
  all_of isspace pre = true -> all_of isspace post = true ->
  (create w (classify_request e)).1
  = APICompletions (Some (pre +:+ x +:+ periods n +:+ post) :: rest) ->
  (classify_email create e (ready r w t)).1 = Returns (Some c).
Proof.
  intros Hid Hsubject Hbody Hc Hx Hpre Hpost Hreply.
  destruct (run_classify_email e id (ready r w t) eq_refl Hid Hsubject Hbody)
    as (l & _ & ->).
  cbn [fst world ready]. unfold classified. rewrite Hreply.
  cbn [classification_of]. rewrite (normalise_decorated c x pre post n Hc Hx Hpre Hpost).
  cbn [in_categories].
  rewrite bool_decide_eq_true_2; [reflexivity|].
  by apply elem_of_fixed_categories.
Qed.

Lemma category_has_no_whitespace c :
  c ∈ categories -> all_of (fun ch => negb (isspace ch)) c = true.
Proof.
  rewrite elem_of_categories. intros [->|[->|[->|[->| ->]]]]; reflexivity.
Qed.

Lemma space_is_no_period ch :
  isspace ch = true -> negb (if decide (ch = "."%char) then true else false) = true.
Proof.
  intros Hch. destruct (decide (ch = "."%char)) as [->|]; [|reflexivity].
  vm_compute in Hch. discriminate Hch.
Qed.

(** With whitespace between the name and the period, the whitespace
    stays: it is stripped before the period is. *)
Lemma normalise_space_before_period c (x ws : string) :
  c ∈ fixed_categories -> lower x = c -> all_of isspace ws = true ->
  rstrip_char "." (strip (lower (x +:+ ws +:+ "."))) = c +:+ ws.
Proof.
  intros Hc Hx Hws.
  rewrite !lower_app, Hx, (lower_blank ws Hws).
  change (lower ".") with ".".
  assert (Hcat : lstrip_by isspace (c +:+ ws +:+ ".") = c +:+ ws +:+ "."
                 /\ all_of (fun ch => negb (if decide (ch = "."%char) then true else false)) c
                    = true).
  { unfold fixed_categories in Hc. rewrite !elem_of_cons, elem_of_nil in Hc.
    destruct Hc as [->|[->|[->|[->|[->|[]]]]]]; split; reflexivity. }
  destruct Hcat as [Hhead Hnodot].
  unfold strip. rewrite Hhead, <- app_assoc_string.
  rewrite rstrip_by_app_kept; [|intros Heq; discriminate Heq].
  change (rstrip_by isspace ".") with ".".
  unfold rstrip_char. rewrite rstrip_by_app_all; [|reflexivity].
  apply rstrip_by_none. rewrite all_of_app, Hnodot.
  exact (all_of_impl _ _ ws space_is_no_period Hws).
Qed.

(** X4. A reply that names a category and puts whitespace between
    the name and a final period is not recognised: the normalisation
    strips whitespace before it strips the period, so the whitespace
    stays, [classify_email] returns [None] and the pipeline settles on
    ["other"]. *)
Theorem space_before_period_is_not_recognised e id c (x ws : string) rest r (w : W) t :
  e !! "id" = Some id -> present e "subject" = true -> present e "body" = true ->
  c ∈ fixed_categories -> lower x = c ->
  ws <> "" -> all_of isspace ws = true ->
  (create w (classify_request e)).1 = APICompletions (Some (x +:+ ws +:+ ".") :: rest) ->
  (classify_email create e (ready r w t)).1 = Returns None
  /\ settled create e w = "other".
Proof.
  intros Hid Hsubject Hbody Hc Hx Hne Hws Hreply.
  assert (Hclassified : classified create e w = None).
  { unfold classified. rewrite Hreply. cbn [classification_of].
    rewrite (normalise_space_before_period c x ws Hc Hx Hws).
    cbn [in_categories]. rewrite bool_decide_eq_false_2; [reflexivity|].
    intros Hin. apply category_has_no_whitespace in Hin.
    rewrite all_of_app, andb_true_iff in Hin. destruct Hin as [_ Hin].
    destruct ws as [|ch ws]; [by destruct Hne|].
    simpl in Hws, Hin. rewrite andb_true_iff in Hws, Hin.
    destruct Hws as [Hch _]. destruct Hin as [Hch' _].
    rewrite Hch in Hch'. discriminate Hch'. }
  split.
  - destruct (run_classify_email e id (ready r w t) eq_refl Hid Hsubject Hbody)
      as (l & _ & ->).
    cbn [fst world ready]. by rewrite Hclassified.
  - unfold settled. by rewrite Hclassified.
Qed.

(** *** [generate_response] and the handlers on their own *)

(** X5. [generate_response] knows six categories, the five of the
    pipeline and ["spam"]. For each of them it sends one response
    request, built from the instruction of the category, and returns
    what the service gives; for any other classification it raises
    [KeyError] at the lookup of the instruction, before it prints or
    requests anything. *)
Theorem generate_response_knows_six_categories e id classification r (w : W) t :
  e !! "id" = Some id -> present e "subject" = true -> present e "body" = true ->
  dom response_prompts = list_to_set ("spam" :: fixed_categories)
  /\ match response_prompts !! classification with
     | Some instruction =>
         let req := response_request (client (processor automation_system))
                      (RESPONSES_TEMPLATE classification instruction (email_data e)) in
         exists l,
           generate_response create e classification (ready r w t)
           = (Returns (response_of (create w req).1), ready r (create w req).2 (t ++ l))
           /\ calls l = [EvRequest Response req]
     | None =>
         generate_response create e classification (ready r w t)
         = (Raises (KeyError classification), ready r w t)
     end.
Proof.
  intros Hid Hsubject Hbody.
  split; [apply (bool_decide_unpack _); vm_compute; exact I|].
  destruct (response_prompts !! classification) as [instruction|] eqn:Hinstr.
  - intros req.
    destruct (run_generate_response e id classification (ready r w t) eq_refl
                Hid Hsubject Hbody (mk_is_Some _ _ Hinstr)) as (l & Hl & Hrun).
    assert (Hreq : respond_request e classification = req).
    { unfold respond_request. by rewrite Hinstr. }
    rewrite Hreq in Hl, Hrun.
    exists l. split; [exact Hrun | exact Hl].
  - unfold generate_response.
    by rewrite run_bind, run_gets, run_bind, (run_getitem_missing _ _ _ Hinstr).
Qed.

Lemma run_get_email_subject_and_body_fails e s :
  present e "subject" && present e "body" = false ->
  exists x, get_email_subject_and_body e s = (Raises x, s).
Proof.
  unfold present, get_email_subject_and_body, getitem. rewrite run_bind.
  destruct (e !! "subject") as [subject|]; [|by eexists].
  rewrite run_ret, run_bind.
  destruct (e !! "body") as [body|]; [|destruct subject; by eexists].
  rewrite run_ret.
  destruct subject as [subject|]; [|by eexists].
  destruct body as [body|]; [|by eexists].
  intros Heq; discriminate Heq.
Qed.

(** X6. A handler called on any email either returns, having made
    all the service calls of its category, or raises, having made none
    of them. It raises exactly when the email has no ['id'] or, for a
    handler other than [_handle_inquiry], when subject or body is
    missing or [None]. *)
Theorem handler_is_all_or_nothing h e response s :
  exists l,
    (call_handler h e response s).2 = upd s (result s) (world s) l
    /\ dispatched l = [h]
    /\ match (call_handler h e response s).1 with
       | Returns _ =>
           service_calls l = handler_services h e response
           /\ is_Some (e !! "id")
           /\ (h = _handle_inquiry
               \/ present e "subject" && present e "body" = true)
       | Raises x =>
           service_calls l = []
           /\ ((e !! "id" = None /\ x = KeyError "id")
               \/ (h <> _handle_inquiry
                   /\ present e "subject" && present e "body" = false))
       end.
Proof.
  destruct (e !! "id") as [id|] eqn:Hid.
  2: { exists [EvDispatch h].
       assert (Hrun : call_handler h e response s
                      = (Raises (KeyError "id"),
                         upd s (result s) (world s) [EvDispatch h])).
       { unfold call_handler. rewrite run_bind, run_emit.
         destruct h; unfold handler_body;
           by rewrite run_bind, (run_getitem_missing _ _ _ Hid). }
       rewrite Hrun. cbn [fst snd].
       split; [reflexivity|]. split; [reflexivity|]. split; [reflexivity|].
       left. split; reflexivity. }
  destruct (decide (h = _handle_inquiry)) as [->|Hh].
  { eexists. unfold call_handler, handler_body.
    rewrite run_bind, run_emit, run_bind, (run_getitem _ _ _ _ Hid),
      run_send_standard_response, upd_upd.
    cbn [fst snd]. split; [reflexivity|]. split; [reflexivity|].
    split; [|split; [by eexists | by left]].
    unfold handler_services. by rewrite Hid. }
  destruct (present e "subject" && present e "body") eqn:Hp.
  - apply andb_true_iff in Hp. destruct Hp as [Hsubject Hbody].
    destruct (run_call_handler h e id response s Hid Hsubject Hbody) as (l & Hl & ->).
    exists l. cbn [fst snd]. split; [reflexivity|].
    rewrite <- dispatched_calls, <- service_calls_calls, Hl.
    destruct (handled_shape h (handler_services h e response)) as [-> ->].
    split; [reflexivity|]. split; [reflexivity|].
    split; [by eexists | by right].
  - exists [EvDispatch h].
    assert (Hrun : exists x, call_handler h e response s
                             = (Raises x, upd s (result s) (world s) [EvDispatch h])).
    { unfold call_handler. rewrite run_bind, run_emit.
      destruct (run_get_email_subject_and_body_fails e
                  (upd s (result s) (world s) [EvDispatch h]) Hp) as [x Hx].
      exists x.
      destruct h; try (by destruct Hh); unfold handler_body;
        by rewrite run_bind, (run_getitem _ _ _ _ Hid), run_bind, Hx. }
    destruct Hrun as [x ->]. cbn [fst snd].
    split; [reflexivity|]. split; [reflexivity|]. split; [reflexivity|].
    right. split; [exact Hh | reflexivity].
Qed.

(** *** What the pipeline reads of an email, and what its result reports *)

Lemma email_data_ext e e' :
  e !! "subject" = e' !! "subject" -> e !! "body" = e' !! "body" ->
  email_data e = email_data e'.
Proof. intros Hs Hb. unfold email_data, str_field. by rewrite Hs, Hb. Qed.

Lemma handler_services_ext h e e' response :
  e !! "id" = e' !! "id" -> email_data e = email_data e' ->
  handler_services h e response = handler_services h e' response.
Proof. intros Hid Hdata. unfold handler_services. by rewrite Hid, Hdata. Qed.

Lemma classify_request_ext e e' :
  email_data e = email_data e' -> classify_request e = classify_request e'.
Proof. intros Hdata. unfold classify_request. by rewrite Hdata. Qed.

Lemma respond_request_ext e e' c :
  email_data e = email_data e' -> respond_request e c = respond_request e' c.
Proof. intros Hdata. unfold respond_request. by rewrite Hdata. Qed.

Lemma settled_ext e e' w :
  email_data e = email_data e' -> settled create e w = settled create e' w.
Proof.
  intros Hdata. unfold settled, classified.
  by rewrite (classify_request_ext e e' Hdata).
Qed.

Lemma response_reply_ext e e' w :
  email_data e = email_data e' -> response_reply create e w = response_reply create e' w.
Proof.
  intros Hdata. unfold response_reply, world_classified.
  by rewrite (settled_ext e e' w Hdata), (classify_request_ext e e' Hdata),
    (respond_request_ext e e' _ Hdata).
Qed.

(** What a run of [process_email] comes to: its outcome, the calls it
    has made and the state it leaves the service in. *)
Lemma process_email_ext e e' r w t :
  e !! "id" = e' !! "id" -> email_data e = email_data e' ->
  accepted fromisoformat required e = accepted fromisoformat required e' ->
  (process_email create fromisoformat e (ready r w t)).1
  = (process_email create fromisoformat e' (ready r w t)).1
  /\ calls (trace (process_email create fromisoformat e (ready r w t)).2)
     = calls (trace (process_email create fromisoformat e' (ready r w t)).2)
  /\ world (process_email create fromisoformat e (ready r w t)).2
     = world (process_email create fromisoformat e' (ready r w t)).2.
Proof.
  intros Hid Hdata Hacc.
  destruct (e' !! "id") as [id|] eqn:Hid'.
  2: { clear Hacc.
       rewrite (process_email_missing e _ Hid), (process_email_missing e' _ Hid').
       split; [reflexivity|]. split; reflexivity. }
  pose proof (settled_ext e e' w Hdata) as Hsettled.
  pose proof (response_reply_ext e e' w Hdata) as Hreply.
  pose proof (classify_request_ext e e' Hdata) as Hclassify.
  pose proof (fun c => respond_request_ext e e' c Hdata) as Hrespond.
  pose proof (fun h response => handler_services_ext h e e' response
                                  (eq_trans Hid (eq_sym Hid')) Hdata) as Hservices.
  destruct (process_email_cases e id r w t Hid)
    as [(Ha & logs & Hlogs & ->)
       | [(Ha & Hresp & l & Hl & ->) | (Ha & response & l & Hresp & Hne & Hl & ->)]];
    destruct (process_email_cases e' id r w t Hid')
      as [(Ha' & logs' & Hlogs' & ->)
         | [(Ha' & Hresp' & l' & Hl' & ->)
           | (Ha' & response' & l' & Hresp' & Hne' & Hl' & ->)]];
    cbn [fst snd trace world ready];
    try (rewrite Hacc, Ha' in Ha; discriminate Ha);
    rewrite !calls_app.
  - rewrite Hlogs, Hlogs'. split; [reflexivity|]. split; reflexivity.
  - rewrite Hl, Hl', Hsettled, Hreply, Hclassify, Hrespond.
    split; [reflexivity|]. split; reflexivity.
  - rewrite Hreply, Hresp' in Hresp. cbn [default] in Hresp. destruct (Hne' Hresp).
  - rewrite <- Hreply, Hresp in Hresp'. cbn [default] in Hresp'. destruct (Hne Hresp').
  - rewrite Hreply, Hresp' in Hresp. apply Some_inj in Hresp. subst response'.
    rewrite Hl, Hl', Hsettled, Hreply, Hclassify, Hrespond, Hservices.
    split; [reflexivity|]. split; reflexivity.
Qed.

(** X7. Past validation, [process_email] reads only the ['id'], the
    subject and the body of an email: two emails that agree on these
    three and get the same verdict from [validate_email_format] get the
    same outcome, cause the same requests, dispatch and service calls,
    and leave the service in the same state. The sender and the
    timestamp reach neither the language model nor a handler. *)
Theorem pipeline_reads_only_id_subject_and_body e e' r (w : W) t :
  e !! "id" = e' !! "id" ->
  e !! "subject" = e' !! "subject" ->
  e !! "body" = e' !! "body" ->
  (validate_email_format fromisoformat e (ready r w t)).1
  = (validate_email_format fromisoformat e' (ready r w t)).1 ->
  (process_email create fromisoformat e (ready r w t)).1
  = (process_email create fromisoformat e' (ready r w t)).1
  /\ calls (trace (process_email create fromisoformat e (ready r w t)).2)
     = calls (trace (process_email create fromisoformat e' (ready r w t)).2)
  /\ world (process_email create fromisoformat e (ready r w t)).2
     = world (process_email create fromisoformat e' (ready r w t)).2.
Proof.
  intros Hid Hsubject Hbody.
  rewrite !(validate_returns _ (ready r w t) eq_refl).
  intros Hacc%Returns_inj.
  exact (process_email_ext e e' r w t Hid (email_data_ext e e' Hsubject Hbody) Hacc).
Qed.

Lemma sent_app l1 l2 : sent (l1 ++ l2) = sent l1 ++ sent l2.
Proof. apply omap_app. Qed.

Lemma sent_calls l : sent (calls l) = sent l.
Proof.
  induction l as [|ev l IH]; [done|]. rewrite calls_cons.
  destruct ev as [| | | |[]]; simpl; by rewrite ?IH.
Qed.

Lemma sent_handler_services h e id response :
  e !! "id" = Some id ->
  sent (map EvService (handler_services h e response)) = [(id, response)].
Proof. intros Hid. unfold handler_services. rewrite Hid. by destruct h. Qed.

(** X8. The dict [process_email] returns reports what was done: its
    [email_id] is the email's ['id'], and its [response_sent] is [True]
    exactly when a response went out. When it is [True], one response
    was sent, for this email, with the text the service gave for it,
    unchanged; when it is [False], none was sent. *)
Theorem result_reports_what_was_sent e id r (w : W) t :
  e !! "id" = Some id ->
  exists res w' l,
    process_email create fromisoformat e (ready r w t)
    = (Returns res, ready res w' (t ++ l))
    /\ res !! "email_id" = Some (of_optional id)
    /\ ((res !! "response_sent" = Some (PyBool true)
         /\ exists response,
              response_of (response_reply create e w).1 = Some response
              /\ sent l = [(id, response)])
        \/ (res !! "response_sent" = Some (PyBool false) /\ sent l = [])).
Proof.
  intros Hid.
  destruct (process_email_cases e id r w t Hid)
    as [(_ & logs & Hlogs & Hrun)
       | [(_ & _ & l & Hl & Hrun) | (_ & response & l & Hresp & _ & Hl & Hrun)]].
  - destruct (initial_result_shape id) as (_ & He & _ & _ & Hr).
    eexists _, _, logs. split; [exact Hrun|]. split; [exact He|]. right.
    split; [exact Hr|]. by rewrite <- sent_calls, Hlogs.
  - destruct (failed_result_shape id (settled create e w)) as (_ & He & _ & _ & Hr).
    eexists _, _, l. split; [exact Hrun|]. split; [exact He|]. right.
    split; [exact Hr|]. by rewrite <- sent_calls, Hl.
  - destruct (sent_result_shape id (settled create e w)) as (_ & He & _ & _ & Hr).
    eexists _, _, l. split; [exact Hrun|]. split; [exact He|]. left.
    split; [exact Hr|]. exists response. split; [exact Hresp|].
    rewrite <- sent_calls, Hl, sent_app.
    by rewrite (sent_handler_services _ _ _ _ Hid).
Qed.

Lemma elem_of_calls ev l : ev ∈ calls l <-> is_output ev = false /\ ev ∈ l.
Proof. unfold calls. by rewrite list_elem_of_filter. Qed.

(** X9. Every request [process_email] sends to the language model
    names the model ["gpt-4o-mini"] and carries two messages, the
    system prompt and then one user prompt; a classification request
    has temperature 0 and a response request temperature 0.5. *)
Theorem requests_use_fixed_model_and_system_prompt e r (w : W) t :
  exists l,
    trace (process_email create fromisoformat e (ready r w t)).2 = t ++ l
    /\ forall op req,
         EvRequest op req ∈ l ->
         req_model req = "gpt-4o-mini"
         /\ req_temperature req
            = match op with Classification => 0%Q | Response => (1 # 2)%Q end
         /\ exists prompt,
              req_messages req
              = [ {| role := "system"; content := SYSTEM_PROMPT |};
                  {| role := "user"; content := prompt |} ].
Proof.
  destruct (process_email_trace e r w t) as (l & Htrace & Hcalls).
  exists l. split; [exact Htrace|].
  intros op req Hin.
  assert (Hin' : EvRequest op req ∈ calls l) by (apply elem_of_calls; by split).
  clear Hin.
  assert (Hshape : forall c : string,
            EvRequest op req ∈ [EvRequest Classification (classify_request e);
                                EvRequest Response (respond_request e c)] ->
            req_model req = "gpt-4o-mini"
            /\ req_temperature req
               = match op with Classification => 0%Q | Response => (1 # 2)%Q end
            /\ exists prompt,
                 req_messages req
                 = [ {| role := "system"; content := SYSTEM_PROMPT |};
                     {| role := "user"; content := prompt |} ]).
  { intros c. rewrite !elem_of_cons, elem_of_nil.
    intros [Heq|[Heq|[]]]; injection Heq as -> ->;
      (split; [reflexivity|]; split; [reflexivity|]; eexists; reflexivity). }
  destruct Hcalls as [Hl | [(_ & _ & id & Hl) | (_ & response & _ & _ & Hl)]];
    rewrite Hl in Hin'.
  - by apply elem_of_nil in Hin'.
  - apply (Hshape (settled create e w)).
    rewrite !elem_of_cons in Hin'. rewrite !elem_of_cons.
    destruct Hin' as [Heq|[Heq|[Heq|Hnil]]];
      [by left | by right; left | discriminate Heq | by apply elem_of_nil in Hnil].
  - apply (Hshape (settled create e w)).
    rewrite elem_of_app, !elem_of_cons in Hin'. rewrite !elem_of_cons.
    destruct Hin' as [[Heq|[Heq|[Heq|Hnil]]]|Hsvc];
      [by left | by right; left | discriminate Heq | by apply elem_of_nil in Hnil |].
    apply list_elem_of_fmap in Hsvc. destruct Hsvc as (c & Heq & _). discriminate Heq.
Qed.

(** *** The loop of [run_demonstration] *)

(** One call of [process_email] in the loop, on an email with an ['id']. *)
Lemma process_email_step e id r w t :
  e !! "id" = Some id ->
  exists res w' l,
    process_email create fromisoformat e (ready r w t)
    = (Returns res, ready res w' (t ++ l))
    /\ res !! "email_id" = Some (of_optional id)
    /\ length (requests_of Classification l) <= 1
    /\ length (requests_of Response l) <= 1
    /\ length (dispatched l) <= 1.
Proof.
  intros Hid.
  destruct (process_email_cases e id r w t Hid)
    as [(_ & logs & Hl & Hrun)
       | [(_ & _ & l & Hl & Hrun) | (_ & response & l & _ & _ & Hl & Hrun)]].
  - destruct (initial_result_shape id) as (_ & He & _).
    eexists _, _, logs. split; [exact Hrun|]. split; [exact He|].
    rewrite <- (requests_of_calls Classification logs), <- (requests_of_calls Response logs),
      <- (dispatched_calls logs), Hl. cbn. lia.
  - destruct (failed_result_shape id (settled create e w)) as (_ & He & _).
    eexists _, _, l. split; [exact Hrun|]. split; [exact He|].
    rewrite <- (requests_of_calls Classification l), <- (requests_of_calls Response l),
      <- (dispatched_calls l), Hl.
    destruct (failed_shape (classify_request e) (respond_request e (settled create e w))
                (CreateSupportTicket id ("Error: " +:+ no_response id)))
      as (-> & -> & -> & _).
    cbn. lia.
  - destruct (sent_result_shape id (settled create e w)) as (_ & He & _).
    eexists _, _, l. split; [exact Hrun|]. split; [exact He|].
    rewrite <- (requests_of_calls Classification l), <- (requests_of_calls Response l),
      <- (dispatched_calls l), Hl.
    destruct (sent_shape (classify_request e) (respond_request e (settled create e w))
                (handler_for (settled create e w))
                (handler_services (handler_for (settled create e w)) e response))
      as (-> & -> & -> & _).
    cbn. lia.
Qed.

Lemma run_process_all_cons e id rest results s :
  e !! "id" = Some id ->
  process_all create fromisoformat (e :: rest) results s
  = match process_email create fromisoformat e
            (upd s (result s) (world s)
               [EvLog INFO (nl +:+ "Processing email " +:+ fmt id +:+ "...")]) with
    | (Returns res, s') => process_all create fromisoformat rest (results ++ [res]) s'
    | (Raises x, s') => (Raises x, s')
    end.
Proof.
  intros Hid. cbn [process_all].
  by rewrite run_bind, (run_getitem _ _ _ _ Hid), run_bind, run_logger, run_bind.
Qed.

Lemma run_process_all_missing e rest results s :
  e !! "id" = None ->
  process_all create fromisoformat (e :: rest) results s = (Raises (KeyError "id"), s).
Proof.
  intros Hid. cbn [process_all].
  by rewrite run_bind, (run_getitem_missing _ _ _ Hid).
Qed.

(** The loop over a list followed by another. *)
Lemma process_all_app emails emails' results s :
  process_all create fromisoformat (emails ++ emails') results s
  = match process_all create fromisoformat emails results s with
    | (Returns rs, s') => process_all create fromisoformat emails' rs s'
    | (Raises x, s') => (Raises x, s')
    end.
Proof.
  revert results s. induction emails as [|e emails IH]; intros results s; [done|].
  rewrite <- app_comm_cons.
  destruct (e !! "id") as [id|] eqn:Hid.
  - rewrite !(run_process_all_cons _ _ _ _ _ Hid).
    destruct (process_email create fromisoformat e _) as [[res|x] s']; [apply IH | done].
  - by rewrite !(run_process_all_missing _ _ _ _ Hid).
Qed.

(** The loop on emails that all have an ['id']. *)
Lemma run_process_all emails results r w t :
  Forall has_id emails ->
  exists rs r' w' l,
    process_all create fromisoformat emails results (ready r w t)
    = (Returns (results ++ rs), ready r' w' (t ++ l))
    /\ map (fun res => res !! "email_id") rs = map (fun e => Some (id_of e)) emails.
Proof.
  intros Hall. revert results r w t.
  induction Hall as [|e emails [id Hid] _ IH]; intros results r w t.
  - exists [], r, w, []. by rewrite !app_nil_r.
  - rewrite (run_process_all_cons _ _ _ _ _ Hid).
    change (upd (ready r w t) (result (ready r w t)) (world (ready r w t)) ?l)
      with (ready r w (t ++ l)).
    destruct (process_email_step e id r w
                (t ++ [EvLog INFO (nl +:+ "Processing email " +:+ fmt id +:+ "...")]) Hid)
      as (res & w1 & l1 & -> & He & _).
    destruct (IH (results ++ [res]) res w1
                ((t ++ [EvLog INFO (nl +:+ "Processing email " +:+ fmt id +:+ "...")])
                   ++ l1))
      as (rs & r' & w' & l2 & -> & Hids).
    exists (res :: rs), r', w'. eexists.
    split; [by rewrite <- !app_assoc|].
    cbn [map]. rewrite He, Hids. unfold id_of. by rewrite Hid.
Qed.

(** The requests and dispatches of the loop, on any emails. *)
Lemma process_all_bound emails results r w t :
  exists r' w' l,
    (process_all create fromisoformat emails results (ready r w t)).2
    = ready r' w' (t ++ l)
    /\ length (requests_of Classification l) <= length emails
    /\ length (requests_of Response l) <= length emails
    /\ length (dispatched l) <= length emails.
Proof.
  revert results r w t.
  induction emails as [|e emails IH]; intros results r w t.
  - exists r, w, []. rewrite app_nil_r. cbn. split; [reflexivity | lia].
  - destruct (e !! "id") as [id|] eqn:Hid.
    2: { rewrite (run_process_all_missing _ _ _ _ Hid).
         exists r, w, []. rewrite app_nil_r. cbn. split; [reflexivity | lia]. }
    rewrite (run_process_all_cons _ _ _ _ _ Hid).
    change (upd (ready r w t) (result (ready r w t)) (world (ready r w t)) ?l)
      with (ready r w (t ++ l)).
    destruct (process_email_step e id r w
                (t ++ [EvLog INFO (nl +:+ "Processing email " +:+ fmt id +:+ "...")]) Hid)
      as (res & w1 & l1 & -> & _ & Hc1 & Hr1 & Hd1).
    destruct (IH (results ++ [res]) res w1
                ((t ++ [EvLog INFO (nl +:+ "Processing email " +:+ fmt id +:+ "...")])
                   ++ l1))
      as (r' & w' & l2 & -> & Hc2 & Hr2 & Hd2).
    exists r', w'. eexists. split; [by rewrite <- !app_assoc|].
    rewrite !requests_of_app, !dispatched_app, !length_app. cbn. lia.
Qed.

Section Demonstrations.

Variable path_exists : string -> bool.
Variable read_json : string -> outcome (list email).
Variable summary : list result_dict -> outcome string.

Lemma run_demonstration_list emails w :
  run_demonstration create fromisoformat path_exists read_json summary (DataList emails) w
  = match process_all create fromisoformat emails [] (ready ∅ w []) with
    | (Returns rs, s) =>
        let header := EvPrint (nl +:+ "Processing Summary:" +:+ nl) in
        match summary rs with
        | Returns table =>
            (Finishes rs,
             upd s (result s) (world s) [header; EvPrint (table +:+ nl)])
        | Raises x => (Fails (Exn x), upd s (result s) (world s) [header])
        end
    | (Raises x, s) => (Fails (Exn x), s)
    end.
Proof.
  unfold run_demonstration. cbn [load_data]. rewrite run_bind.
  destruct (process_all create fromisoformat emails [] (ready ∅ w [])) as [[rs|x] s];
    [|reflexivity].
  unfold print1. rewrite run_bind, run_emit, run_bind. cbv beta.
  destruct (summary rs) as [table|x]; [|reflexivity].
  by rewrite run_bind, run_emit, run_ret, upd_upd.
Qed.

(** X10. Given a list of emails that all have an ['id'],
    [run_demonstration] processes every one of them and comes to its
    summary: the rows it collects are one per email, in the order of
    the emails, each with the [email_id] of its email. It prints the
    heading and then the table, and returns the rows, unless the
    rendering of the table raises. *)
Theorem demonstration_gives_one_result_per_email emails w :
  Forall has_id emails ->
  exists rs s,
    process_all create fromisoformat emails [] (ready ∅ w []) = (Returns rs, s)
    /\ map (fun res => res !! "email_id") rs = map (fun e => Some (id_of e)) emails
    /\ run_demonstration create fromisoformat path_exists read_json summary
         (DataList emails) w
       = match summary rs with
         | Returns table =>
             (Finishes rs,
              upd s (result s) (world s)
                [EvPrint (nl +:+ "Processing Summary:" +:+ nl); EvPrint (table +:+ nl)])
         | Raises x =>
             (Fails (Exn x),
              upd s (result s) (world s) [EvPrint (nl +:+ "Processing Summary:" +:+ nl)])
         end.
Proof.
  intros Hall.
  destruct (run_process_all emails [] ∅ w [] Hall) as (rs & r' & w' & l & Hrun & Hids).
  exists rs, (ready r' w' ([] ++ l)).
  split; [exact Hrun|]. split; [exact Hids|].
  rewrite run_demonstration_list, Hrun. reflexivity.
Qed.

(** X11. Given a list in which some email has no ['id'],
    [run_demonstration] raises [KeyError('id')] at the first such
    email, at the log line that announces it: the emails before it have
    been processed, with all their requests and service calls, their
    results are lost, no summary is printed, and the emails after it
    are not processed. *)
Theorem demonstration_stops_at_email_without_id before e rest w :
  Forall has_id before -> e !! "id" = None ->
  run_demonstration create fromisoformat path_exists read_json summary
    (DataList (before ++ e :: rest)) w
  = (Fails (Exn (KeyError "id")),
     (process_all create fromisoformat before [] (ready ∅ w [])).2).
Proof.
  intros Hall Hid.
  rewrite run_demonstration_list, process_all_app.
  destruct (run_process_all before [] ∅ w [] Hall) as (rs & r' & w' & l & -> & _).
  cbn [snd]. by rewrite (run_process_all_missing _ _ _ _ Hid).
Qed.

(** X12. Whatever the emails of the list, [run_demonstration] sends
    at most one classification request and one response request for
    each email, and dispatches at most one handler for each. *)
Theorem demonstration_requests_at_most_once_per_email emails w :
  let t := trace (run_demonstration create fromisoformat path_exists read_json summary
                    (DataList emails) w).2 in
  length (requests_of Classification t) <= length emails
  /\ length (requests_of Response t) <= length emails
  /\ length (dispatched t) <= length emails.
Proof.
  intros t. subst t. rewrite run_demonstration_list.
  destruct (process_all_bound emails [] ∅ w []) as (r' & w' & l & Hs & Hc & Hr & Hd).
  destruct (process_all create fromisoformat emails [] (ready ∅ w [])) as [[rs|x] s];
    cbn [snd] in Hs; subst s; [|cbn [snd trace ready app]; lia].
  destruct (summary rs) as [table|x]; cbn [snd trace upd ready app];
    rewrite !requests_of_app, !dispatched_app, !length_app; cbn; lia.
Qed.

End Demonstrations.

(** *** [load_data] *)

Section Loading.

Context {R : Type}.
Variable path_exists : string -> bool.
Variable read_json : string -> outcome (list R).

(** X13. [load_data] returns records in two cases only: when it is
    given a list, which it returns as it is, and when it is given the
    path of an existing file whose name ends in [.json] or [.csv] and
    which the JSON reader reads (a [.csv] file goes to the JSON reader
    as well). An object with a [to_dict] method, such as a data frame,
    is never loaded: that branch reads the local variable [df] before
    anything is bound to it. *)
Theorem load_data_loads_lists_and_json_files source records :
  (load_data path_exists read_json source = Finishes records
   <-> source = DataList records
       \/ exists path,
            source = DataPath path /\ path_exists path = true
            /\ endswith ".json" path || endswith ".csv" path = true
            /\ read_json path = Returns records)
  /\ forall str,
       load_data path_exists read_json (DataObject true str)
       = Fails (UnboundLocalError "df").
Proof.
  split; [|reflexivity]. split.
  - destruct source as [l|path|[] str]; cbn [load_data]; try (intros Heq; discriminate Heq).
    + intros Heq. injection Heq as ->. by left.
    + destruct (path_exists path) eqn:Hexists; [|intros Heq; discriminate Heq].
      unfold read_records.
      destruct (endswith ".json" path) eqn:Hjson;
        [|destruct (endswith ".csv" path) eqn:Hcsv; [|intros Heq; discriminate Heq]];
        (destruct (read_json path) as [l|x] eqn:Hread; [|intros Heq; discriminate Heq]);
        intros Heq; injection Heq as ->; right; exists path;
        rewrite Hexists, Hjson, ?Hcsv; repeat split; first [reflexivity | exact Hread].
  - intros [->|(path & -> & Hexists & Hext & Hread)]; [reflexivity|].
    cbn [load_data]. unfold read_records. rewrite Hexists, Hread.
    destruct (endswith ".json" path); [reflexivity|].
    destruct (endswith ".csv" path); [reflexivity | discriminate Hext].
Qed.

End Loading.

Lemma handler_services_sends h e response :
  service_calls (map EvService (handler_services h e response))
  = handler_services h e response
  /\ sent (map EvService (handler_services h e response)) <> [].
Proof.
  split; [apply service_calls_services|].
  unfold handler_services. destruct h; intros Heq; discriminate Heq.
Qed.

(** X14. No email that passes validation is dropped: processing it
    ends with a response sent or, when the language model gave no
    response, with one support ticket that carries the error. An email
    that fails validation causes no service call at all. *)
Theorem accepted_email_gets_response_or_ticket e id r (w : W) t :
  e !! "id" = Some id ->
  exists l,
    trace (process_email create fromisoformat e (ready r w t)).2 = t ++ l
    /\ match (validate_email_format fromisoformat e (ready r w t)).1 with
       | Returns true =>
           sent l <> []
           \/ service_calls l = [CreateSupportTicket id ("Error: " +:+ no_response id)]
       | _ => service_calls l = []
       end.
Proof.
  intros Hid. rewrite (validate_returns e (ready r w t) eq_refl).
  destruct (process_email_cases e id r w t Hid)
    as [(Hacc & logs & Hl & ->)
       | [(Hacc & _ & l & Hl & ->) | (Hacc & response & l & _ & _ & Hl & ->)]];
    rewrite Hacc; clear Hacc; cbn [snd trace ready].
  - exists logs. split; [reflexivity|]. by rewrite <- service_calls_calls, Hl.
  - exists l. split; [reflexivity|]. right. by rewrite <- service_calls_calls, Hl.
  - exists l. split; [reflexivity|]. left.
    rewrite <- sent_calls, Hl, sent_app. cbn [sent omap app].
    apply handler_services_sends.
Qed.
End Properties.


(** ** The model on small inputs *)

Example re_match_three_digits : re_match_3_digits "042" = true.
Proof. reflexivity. Qed.

Example re_match_four_digits : re_match_3_digits "0423" = false.
Proof. reflexivity. Qed.

Example re_match_final_newline : re_match_3_digits ("042" +:+ nl) = true.
Proof. reflexivity. Qed.

Example split_words : split ("  two" +:+ nl +:+ "words ") = ["two"; "words"].
Proof. reflexivity. Qed.

Example split_blank : split ("   " +:+ nl) = [].
Proof. reflexivity. Qed.

Example classification_is_normalised :
  classification_of (APICompletions [Some " Support_Request. "]) = Some "support_request".
Proof. reflexivity. Qed.

Example timestamp_with_zulu :
  replace_char "Z" "+00:00" "2024-03-15T10:30:00Z" = "2024-03-15T10:30:00+00:00".
Proof. reflexivity. Qed.

Example sample_email_is_processed :
  (process_email scripted sample_fromisoformat sample_email answering_start).1
  = Returns (sent_result (Some "001") "complaint")
  /\ calls (trace (process_email scripted sample_fromisoformat sample_email
                     answering_start).2)
     = [EvRequest Classification (classify_request sample_email);
        EvRequest Response (respond_request sample_email "complaint");
        EvDispatch _handle_complaint;
        EvService (CreateUrgentTicket (Some "001") "complaint" (email_data sample_email));
        EvService (SendComplaintResponse (Some "001") "We are sorry.")].
Proof. split; vm_compute; reflexivity. Qed.

(** ** The theorems at concrete inputs *)

(** C8 at the sample email without its ['id']. *)
Lemma process_email_without_id_raises_witness :
  email_without_id !! "id" = None
  /\ (process_email scripted sample_fromisoformat email_without_id answering_start
      = (Raises (KeyError "id"), answering_start)
      /\ (validate_email_format sample_fromisoformat email_without_id answering_start).1
         = Returns false).
Proof.
  split; [vm_compute; reflexivity|].
  apply (process_email_without_id_raises scripted sample_fromisoformat
           email_without_id ∅ complaint_then_apology []).
  vm_compute; reflexivity.
Defined.

(** C1, as amended, at the sample email and a service that answers. *)
Lemma pipeline_runs_stages_in_order_witness :
  sample_email !! "id" = Some (Some "001")
  /\ exists res w' l,
       process_email scripted sample_fromisoformat sample_email answering_start
       = (Returns res, ready res w' ([] ++ l))
       /\ (((validate_email_format sample_fromisoformat sample_email answering_start).1
            = Returns false
            /\ res !! "success" = Some (PyBool false)
            /\ res !! "classification" = Some PyNone
            /\ res !! "response_sent" = Some (PyBool false)
            /\ calls l = [] /\ w' = complaint_then_apology)
           \/ ((validate_email_format sample_fromisoformat sample_email answering_start).1
               = Returns true
               /\ ((exists response,
                      response_of
                        (response_reply scripted sample_email complaint_then_apology).1
                      = Some response
                      /\ response <> ""
                      /\ stages l
                         = [Classify; Generate;
                            Dispatch
                              (handler_for
                                 (settled scripted sample_email complaint_then_apology))]
                      /\ dispatched l
                         = [handler_for
                              (settled scripted sample_email complaint_then_apology)]
                      /\ res !! "success" = Some (PyBool true))
                   \/ (default ""
                         (response_of
                            (response_reply scripted sample_email complaint_then_apology).1)
                       = ""
                       /\ stages l = [Classify; Generate]
                       /\ dispatched l = []
                       /\ res !! "success" = Some (PyBool false))))).
Proof.
  split; [vm_compute; reflexivity|].
  apply (pipeline_runs_stages_in_order scripted sample_fromisoformat
           sample_email (Some "001") ∅ complaint_then_apology []).
  vm_compute; reflexivity.
Defined.

(** C3 at the category ["complaint"] and the sample email. *)
Lemma dispatch_table_routes_witness :
  sample_email !! "id" = Some (Some "001")
  /\ present sample_email "subject" = true
  /\ present sample_email "body" = true
  /\ (dom (response_handlers automation_system) = list_to_set fixed_categories
      /\ exists l,
           call_handler
             (default _handle_other (response_handlers automation_system !! "complaint"))
             sample_email "We are sorry." answering_start
           = (Returns tt, ready ∅ complaint_then_apology ([] ++ l))
           /\ length (dispatched l) = 1
           /\ service_calls l
              = routed "complaint" (Some "001") (email_data sample_email) "We are sorry.").
Proof.
  split; [vm_compute; reflexivity|].
  split; [vm_compute; reflexivity|].
  split; [vm_compute; reflexivity|].
  apply (dispatch_table_routes "complaint" sample_email (Some "001") "We are sorry."
           ∅ complaint_then_apology []); vm_compute; reflexivity.
Defined.

(** C4 at the stand-in for [datetime.fromisoformat]. *)
Lemma validate_accepts_id_with_final_newline_witness :
  is_Some (sample_fromisoformat "2024-03-15T10:30:00+00:00")
  /\ ((validate_email_format sample_fromisoformat email_with_newline_id answering_start).1
      = Returns true
      /\ ~ three_decimal_digits ("123" +:+ nl)
      /\ ~ spec_valid sample_fromisoformat email_with_newline_id).
Proof.
  assert (Hparse : is_Some (sample_fromisoformat "2024-03-15T10:30:00+00:00")).
  { exists tt. vm_compute; reflexivity. }
  split; [exact Hparse|].
  apply (validate_accepts_id_with_final_newline sample_fromisoformat
           ∅ complaint_then_apology []).
  exact Hparse.
Defined.

(** C5, as amended, at the sample email and a service that fails on the
    response request. *)
Lemma exception_is_caught_logged_and_ticketed_witness :
  sample_email !! "id" = Some (Some "001")
  /\ process_email_try scripted sample_fromisoformat sample_email
       (upd failing_start (initial_result (Some "001")) (world failing_start) [])
     = (Raises (ValueError (no_response (Some "001"))), failing_raise)
  /\ (process_email scripted sample_fromisoformat sample_email failing_start
      = (Returns (result failing_raise),
         upd failing_raise (result failing_raise) (world failing_raise)
           [EvLog ERROR ("Error while processing email with ID: " +:+ fmt (Some "001"));
            EvService
              (CreateSupportTicket (Some "001")
                 ("Error: " +:+ exn_str (ValueError (no_response (Some "001")))));
            EvLog INFO ("Creating support ticket for email " +:+ fmt (Some "001"))])
      /\ result failing_raise !! "success" = Some (PyBool false)
      /\ result failing_raise !! "response_sent" = Some (PyBool false)).
Proof.
  assert (Hraise :
            process_email_try scripted sample_fromisoformat sample_email
              (upd failing_start (initial_result (Some "001")) (world failing_start) [])
            = (Raises (ValueError (no_response (Some "001"))), failing_raise)).
  { vm_compute; reflexivity. }
  split; [vm_compute; reflexivity|].
  split; [exact Hraise|].
  apply (exception_is_caught_logged_and_ticketed scripted sample_fromisoformat
           sample_email (Some "001") failing_start
           (ValueError (no_response (Some "001"))) failing_raise).
  - vm_compute; reflexivity.
  - exact Hraise.
Defined.

(** C6, as amended, at a service that always gives the same reply. *)
Lemma processing_is_independent_of_history_witness :
  stateless_replies constant_service
  /\ (process_email constant_service sample_fromisoformat sample_email
        (after constant_service sample_fromisoformat [sample_email; email_without_id]
           (ready ∅ tt []))).1
     = (process_email constant_service sample_fromisoformat sample_email
          (ready ∅ tt [])).1.
Proof.
  assert (Hstateless : stateless_replies constant_service).
  { intros w w' req. reflexivity. }
  split; [exact Hstateless|].
  apply (processing_is_independent_of_history constant_service sample_fromisoformat
           [sample_email; email_without_id] sample_email ∅ tt []).
  exact Hstateless.
Defined.

(** ** Where the claims as stated fail *)

(** C1 as stated fails: the sample email passes validation, the
    classification and the response request are made, and no handler is
    dispatched, because the service yields no response; and the sample
    email without its ['id'] gets no result dict at all. *)
Lemma valid_email_without_response_has_no_dispatch :
  (validate_email_format sample_fromisoformat sample_email failing_start).1 = Returns true
  /\ stages (trace (process_email scripted sample_fromisoformat sample_email
                     failing_start).2)
     = [Classify; Generate]
  /\ dispatched (trace (process_email scripted sample_fromisoformat sample_email
                          failing_start).2)
     = []
  /\ (process_email scripted sample_fromisoformat email_without_id failing_start).1
     = Raises (KeyError "id").
Proof. repeat split; vm_compute; reflexivity. Qed.

(** C5 as stated fails: on the error path [create_support_ticket] is
    called besides the logging, and an exception raised by
    [email['id']] before the [try] block is not caught. *)
Lemma error_path_calls_create_support_ticket :
  (process_email scripted sample_fromisoformat sample_email failing_start).1
  = Returns (failed_result (Some "001") "complaint")
  /\ service_calls (trace (process_email scripted sample_fromisoformat sample_email
                             failing_start).2)
     = [CreateSupportTicket (Some "001")
          "Error: Error while generating response for email with ID: 001"]
  /\ process_email scripted sample_fromisoformat email_without_id failing_start
     = (Raises (KeyError "id"), failing_start).
Proof. repeat split; vm_compute; reflexivity. Qed.

(** C6 as stated fails: with a service that answers two requests and
    then fails, the sample email succeeds when processed first and fails
    when processed after itself, though no field of the objects has
    changed in between. *)
Lemma outcome_depends_on_the_replies :
  (process_email scripted sample_fromisoformat sample_email answering_start).1
  = Returns (sent_result (Some "001") "complaint")
  /\ (process_email scripted sample_fromisoformat sample_email
        (after scripted sample_fromisoformat [sample_email] answering_start)).1
     = Returns (failed_result (Some "001") "other")
  /\ sent_result (Some "001") "complaint" !! "success" = Some (PyBool true)
  /\ failed_result (Some "001") "other" !! "success" = Some (PyBool false)
  /\ system (after scripted sample_fromisoformat [sample_email] answering_start)
     = system answering_start.
Proof. repeat split; vm_compute; reflexivity. Qed.

(** ** The further properties at concrete inputs *)

(** X3 at a reply [" Complaint..\n"] to the sample email. *)
Lemma decorated_category_is_recognised_witness :
  sample_email !! "id" = Some (Some "001")
  /\ present sample_email "subject" = true
  /\ present sample_email "body" = true
  /\ "complaint" ∈ fixed_categories
  /\ lower "Complaint" = "complaint"
  /\ all_of isspace " " = true
  /\ all_of isspace nl = true
  /\ (scripted decorated_complaint (classify_request sample_email)).1
     = APICompletions [Some (" " +:+ "Complaint" +:+ periods 2 +:+ nl)]
  /\ (classify_email scripted sample_email (ready ∅ decorated_complaint [])).1
     = Returns (Some "complaint").
Proof.
  assert (Hc : "complaint" ∈ fixed_categories) by apply list_elem_of_here.
  do 3 (split; [vm_compute; reflexivity|]).
  split; [exact Hc|].
  do 4 (split; [vm_compute; reflexivity|]).
  apply (decorated_category_is_recognised scripted sample_fromisoformat sample_email
           (Some "001") "complaint" "Complaint" " " nl 2 [] ∅ decorated_complaint []);
    first [exact Hc | vm_compute; reflexivity].
Defined.

(** X4 at a reply ["complaint ."] to the sample email. *)
Lemma space_before_period_is_not_recognised_witness :
  sample_email !! "id" = Some (Some "001")
  /\ present sample_email "subject" = true
  /\ present sample_email "body" = true
  /\ "complaint" ∈ fixed_categories
  /\ lower "complaint" = "complaint"
  /\ " " <> ""
  /\ all_of isspace " " = true
  /\ (scripted spaced_complaint (classify_request sample_email)).1
     = APICompletions [Some ("complaint" +:+ " " +:+ ".")]
  /\ (classify_email scripted sample_email (ready ∅ spaced_complaint [])).1 = Returns None
  /\ settled scripted sample_email spaced_complaint = "other".
Proof.
  assert (Hc : "complaint" ∈ fixed_categories) by apply list_elem_of_here.
  assert (Hne : " " <> "") by (intros Heq; discriminate Heq).
  do 3 (split; [vm_compute; reflexivity|]).
  split; [exact Hc|]. split; [vm_compute; reflexivity|]. split; [exact Hne|].
  do 2 (split; [vm_compute; reflexivity|]).
  apply (space_before_period_is_not_recognised scripted sample_fromisoformat sample_email
           (Some "001") "complaint" "complaint" " " [] ∅ spaced_complaint []);
    first [exact Hc | exact Hne | vm_compute; reflexivity].
Defined.

(** X5 at the sixth category, ["spam"], and the sample email. *)
Lemma generate_response_knows_six_categories_witness :
  sample_email !! "id" = Some (Some "001")
  /\ present sample_email "subject" = true
  /\ present sample_email "body" = true
  /\ (dom response_prompts = list_to_set ("spam" :: fixed_categories)
      /\ match response_prompts !! "spam" with
         | Some instruction =>
             let req := response_request (client (processor automation_system))
                          (RESPONSES_TEMPLATE "spam" instruction (email_data sample_email)) in
             exists l,
               generate_response scripted sample_email "spam"
                 (ready ∅ complaint_then_apology [])
               = (Returns (response_of (scripted complaint_then_apology req).1),
                  ready ∅ (scripted complaint_then_apology req).2 ([] ++ l))
               /\ calls l = [EvRequest Response req]
         | None =>
             generate_response scripted sample_email "spam"
               (ready ∅ complaint_then_apology [])
             = (Raises (KeyError "spam"), ready ∅ complaint_then_apology [])
         end).
Proof.
  do 3 (split; [vm_compute; reflexivity|]).
  apply (generate_response_knows_six_categories scripted sample_email (Some "001") "spam"
           ∅ complaint_then_apology []); vm_compute; reflexivity.
Defined.

(** X7 at the sample email and the same email from another sender at
    another time. *)
Lemma pipeline_reads_only_id_subject_and_body_witness :
  sample_email !! "id" = sample_email_from_elsewhere !! "id"
  /\ sample_email !! "subject" = sample_email_from_elsewhere !! "subject"
  /\ sample_email !! "body" = sample_email_from_elsewhere !! "body"
  /\ (validate_email_format sample_fromisoformat sample_email answering_start).1
     = (validate_email_format sample_fromisoformat sample_email_from_elsewhere
          answering_start).1
  /\ ((process_email scripted sample_fromisoformat sample_email answering_start).1
      = (process_email scripted sample_fromisoformat sample_email_from_elsewhere
           answering_start).1
      /\ calls (trace (process_email scripted sample_fromisoformat sample_email
                         answering_start).2)
         = calls (trace (process_email scripted sample_fromisoformat
                           sample_email_from_elsewhere answering_start).2)
      /\ world (process_email scripted sample_fromisoformat sample_email
                  answering_start).2
         = world (process_email scripted sample_fromisoformat
                    sample_email_from_elsewhere answering_start).2).
Proof.
  do 4 (split; [vm_compute; reflexivity|]).
  apply (pipeline_reads_only_id_subject_and_body scripted sample_fromisoformat
           sample_email sample_email_from_elsewhere ∅ complaint_then_apology []);
    vm_compute; reflexivity.
Defined.

(** X8 at the sample email and a service that answers. *)
Lemma result_reports_what_was_sent_witness :
  sample_email !! "id" = Some (Some "001")
  /\ exists res w' l,
       process_email scripted sample_fromisoformat sample_email answering_start
       = (Returns res, ready res w' ([] ++ l))
       /\ res !! "email_id" = Some (of_optional (Some "001"))
       /\ ((res !! "response_sent" = Some (PyBool true)
            /\ exists response,
                 response_of (response_reply scripted sample_email complaint_then_apology).1
                 = Some response
                 /\ sent l = [(Some "001", response)])
           \/ (res !! "response_sent" = Some (PyBool false) /\ sent l = [])).
Proof.
  split; [vm_compute; reflexivity|].
  apply (result_reports_what_was_sent scripted sample_fromisoformat sample_email
           (Some "001") ∅ complaint_then_apology []).
  vm_compute; reflexivity.
Defined.

(** X10 at a list of two emails. *)
Lemma demonstration_gives_one_result_per_email_witness :
  Forall has_id [sample_email; email_with_newline_id]
  /\ exists rs s,
       process_all scripted sample_fromisoformat [sample_email; email_with_newline_id] []
         (ready ∅ complaint_then_apology [])
       = (Returns rs, s)
       /\ map (fun res => res !! "email_id") rs
          = map (fun e => Some (id_of e)) [sample_email; email_with_newline_id]
       /\ run_demonstration scripted sample_fromisoformat (one_file "emails.json")
            reads_sample sample_summary
            (DataList [sample_email; email_with_newline_id]) complaint_then_apology
          = match sample_summary rs with
            | Returns table =>
                (Finishes rs,
                 upd s (result s) (world s)
                   [EvPrint (nl +:+ "Processing Summary:" +:+ nl);
                    EvPrint (table +:+ nl)])
            | Raises x =>
                (Fails (Exn x),
                 upd s (result s) (world s)
                   [EvPrint (nl +:+ "Processing Summary:" +:+ nl)])
            end.
Proof.
  assert (Hall : Forall has_id [sample_email; email_with_newline_id]).
  { repeat constructor; eexists; vm_compute; reflexivity. }
  split; [exact Hall|].
  apply (demonstration_gives_one_result_per_email scripted sample_fromisoformat
           (one_file "emails.json") reads_sample sample_summary
           [sample_email; email_with_newline_id] complaint_then_apology Hall).
Defined.

(** X11 at a list whose second email has no ['id']. *)
Lemma demonstration_stops_at_email_without_id_witness :
  Forall has_id [sample_email]
  /\ email_without_id !! "id" = None
  /\ run_demonstration scripted sample_fromisoformat (one_file "emails.json")
       reads_sample sample_summary
       (DataList ([sample_email] ++ email_without_id :: [sample_email]))
       complaint_then_apology
     = (Fails (Exn (KeyError "id")),
        (process_all scripted sample_fromisoformat [sample_email] []
           (ready ∅ complaint_then_apology [])).2).
Proof.
  assert (Hall : Forall has_id [sample_email]).
  { repeat constructor; eexists; vm_compute; reflexivity. }
  assert (Hid : email_without_id !! "id" = None) by (vm_compute; reflexivity).
  split; [exact Hall|]. split; [exact Hid|].
  apply (demonstration_stops_at_email_without_id scripted sample_fromisoformat
           (one_file "emails.json") reads_sample sample_summary
           [sample_email] email_without_id [sample_email] complaint_then_apology Hall Hid).
Defined.

(** X14 at the sample email and a service that fails on the response
    request. *)
Lemma accepted_email_gets_response_or_ticket_witness :
  sample_email !! "id" = Some (Some "001")
  /\ exists l,
       trace (process_email scripted sample_fromisoformat sample_email failing_start).2
       = [] ++ l
       /\ match (validate_email_format sample_fromisoformat sample_email failing_start).1 with
          | Returns true =>
              sent l <> []
              \/ service_calls l
                 = [CreateSupportTicket (Some "001")
                      ("Error: " +:+ no_response (Some "001"))]
          | _ => service_calls l = []
          end.
Proof.
  split; [vm_compute; reflexivity|].
  apply (accepted_email_gets_response_or_ticket scripted sample_fromisoformat sample_email
           (Some "001") ∅ complaint_then_failure []).
  vm_compute; reflexivity.
Defined.


